(** * TryDoctor: the request handler of [app.py]

    A shallow embedding of the single Flask view [index] of [app.py]: the
    search over the preloaded table, the per-row call to the directions
    service inside its [try] statement, the formatting of travel time and
    distance, and the choice of the map center.

    Conventions.
    - A Python [str] is the [string] of its UTF-8 bytes. [lower], [upper]
      and [strip] are Python's on ASCII text; a byte above 127 is left
      alone by all three, which is what Python does to a character that
      has no case and is not white space. Where [str.lower] does more,
      [lower_u] writes it out for the letter U+0130.
    - Python [float] values are binary64 numbers ([PrimFloat.float]); the
      operations the handler uses that are not primitive ([//], [int()],
      [int / int], the [.2f] format) are written out on the exact value
      [Prim2SF] gives.
    - Python [int] values are [Z].
    - What the handler takes from outside the file is a variable of the
      section [Handler]: Python's [float(str)] and [repr], pandas'
      [Series.mean], and the directions service.
    - The module [mapbox.errors] defines no [MapboxAPIError]: the [except]
      clause of line 238 that names it raises AttributeError when it is
      evaluated, which is whenever the [try] body raised.
    - [print] calls only write to the console and are left out. *)

From Stdlib Require Import ZArith List String Ascii Bool Floats DecimalString DecimalPos Lia.
Import ListNotations.

Set Warnings "-inexact-float,-register-all".

Local Open Scope string_scope.
Local Open Scope Z_scope.

(** ** Python strings *)

(** [str.isspace] on an ASCII character: tab to carriage return, the four
    separators 0x1c-0x1f, and the space. The white space outside ASCII
    (U+0085, U+00A0, U+2000 and the like) is not covered: text that starts
    or ends with it is outside the model. *)
Definition is_space (c : ascii) : bool :=
  let n := nat_of_ascii c in
  ((9 <=? n)%nat && (n <=? 13)%nat) || ((28 <=? n)%nat && (n <=? 32)%nat).

Definition lower_char (c : ascii) : ascii :=
  let n := nat_of_ascii c in
  if ((65 <=? n)%nat && (n <=? 90)%nat) then ascii_of_nat (n + 32) else c.

Definition upper_char (c : ascii) : ascii :=
  let n := nat_of_ascii c in
  if ((97 <=? n)%nat && (n <=? 122)%nat) then ascii_of_nat (n - 32) else c.

Fixpoint str_map (f : ascii -> ascii) (s : string) : string :=
  match s with
  | EmptyString => EmptyString
  | String c s' => String (f c) (str_map f s')
  end.

(** [s.lower()] and [s.upper()] on ASCII text and on text whose other
    characters have no case. *)
Definition lower (s : string) : string := str_map lower_char s.
Definition upper (s : string) : string := str_map upper_char s.




(** Truth value of a [str]: the empty string is false. *)
Definition str_truthy (s : string) : bool :=
  match s with EmptyString => false | String _ _ => true end.

Fixpoint lstrip (s : string) : string :=
  match s with
  | EmptyString => EmptyString
  | String c s' => if is_space c then lstrip s' else s
  end.

Fixpoint rstrip (s : string) : string :=
  match s with
  | EmptyString => EmptyString
  | String c s' =>
      let r := rstrip s' in
      if is_space c && negb (str_truthy r) then EmptyString else String c r
  end.

(** [s.strip()]. *)
Definition strip (s : string) : string := rstrip (lstrip s).

(** [p in s] for two strings. *)
Fixpoint str_in (p s : string) : bool :=
  prefix p s ||
  match s with
  | EmptyString => false
  | String _ s' => str_in p s'
  end.

(** [Series.str.contains(pat, case=False, na=False, regex=False)] on one
    cell: pandas upper-cases the pattern and the cell and tests [in]. *)
Definition str_contains_nocase (pat cell : string) : bool :=
  str_in (upper pat) (upper cell).

(** [str(n)] and [f"{n}"] for an [int]. *)
Definition str_of_int (z : Z) : string := NilZero.string_of_int (Z.to_int z).

(** ** Python numbers *)

(** [float(n)] for an [int] that is in range: the nearest binary64. *)
Definition Z2float (z : Z) : float :=
  SF2Prim (binary_normalize prec emax z 0 false).

(** Truth value of a [float]: zero of either sign is false, NaN is true. *)
Definition float_truthy (x : float) : bool := negb (PrimFloat.eqb x 0%float).

(** C [fmod], exact: the remainder has the sign of the dividend. *)
Definition float_fmod (x y : float) : float :=
  match Prim2SF x, Prim2SF y with
  | S754_nan, _ | _, S754_nan => nan
  | S754_infinity _, _ => nan
  | _, S754_zero _ => nan
  | S754_zero _, _ => x
  | S754_finite _ _ _, S754_infinity _ => x
  | S754_finite sx mx ex, S754_finite _ my ey =>
      let e := Z.min ex ey in
      let r := (Zpos mx * 2 ^ (ex - e)) mod (Zpos my * 2 ^ (ey - e)) in
      SF2Prim (binary_normalize prec emax (if sx then - r else r) e sx)
  end.

(** C [floor]. *)
Definition float_floor (x : float) : float :=
  match Prim2SF x with
  | S754_finite s m e =>
      if 0 <=? e then x
      else
        let d := 2 ^ (- e) in
        if s then Z2float (- ((Zpos m + d - 1) / d))
        else Z2float (Zpos m / d)
  | _ => x
  end.

(** C [copysign (0.0, x)]. *)
Definition signed_zero (x : float) : float :=
  if get_sign x then neg_zero else zero.

(** [vx // wx] for two floats with [wx] not zero: CPython's
    [_float_div_mod], the quotient part. *)
Definition float_floordiv (vx wx : float) : float :=
  let mod_ := float_fmod vx wx in
  let div := PrimFloat.div (PrimFloat.sub vx mod_) wx in
  let div :=
    if float_truthy mod_ &&
       negb (Bool.eqb (PrimFloat.ltb wx 0%float) (PrimFloat.ltb mod_ 0%float))
    then PrimFloat.sub div 1%float else div in
  if float_truthy div then
    let floordiv := float_floor div in
    if PrimFloat.ltb 0.5%float (PrimFloat.sub div floordiv)
    then PrimFloat.add floordiv 1%float else floordiv
  else signed_zero (PrimFloat.div vx wx).

(** Round a non-negative rational [n / d] to the nearest integer, ties to
    the even one. *)
Definition round_half_even (n d : Z) : Z :=
  let q := n / d in
  let r := n mod d in
  match 2 * r ?= d with
  | Lt => q
  | Gt => q + 1
  | Eq => if Z.even q then q else q + 1
  end.

Definition digit_char (d : Z) : ascii := ascii_of_nat (48 + Z.to_nat d).

(** The digits of [n] hundredths, as [I.DD]. *)
Definition hundredths (n : Z) : string :=
  str_of_int (n / 100) ++ "." ++
  String (digit_char ((n / 10) mod 10)) (String (digit_char (n mod 10)) "").

(** [f"{x:.2f}"] for a float: the exact value rounded to two decimals,
    ties to even; [nan] and [inf] are spelled out. *)
Definition format_2f (x : float) : string :=
  match Prim2SF x with
  | S754_nan => "nan"
  | S754_infinity s => if s then "-inf" else "inf"
  | S754_zero s => (if s then "-" else "") ++ "0.00"
  | S754_finite s m e =>
      let n := if 0 <=? e then Zpos m * 100 * 2 ^ e
               else round_half_even (Zpos m * 100) (2 ^ (- e)) in
      (if s then "-" else "") ++ hundredths n
  end.

(** [int(x)] for a float: truncation toward zero, exact. *)
Definition float_trunc (x : float) : option Z :=
  match Prim2SF x with
  | S754_zero _ => Some 0
  | S754_finite s m e =>
      let a := if 0 <=? e then Zpos m * 2 ^ e else Zpos m / 2 ^ (- e) in
      Some (if s then - a else a)
  | _ => None
  end.

(** The operands of [a / b] for two ints, as unrounded binary numbers. *)
Definition Z2SF (z : Z) : spec_float :=
  match z with
  | Z0 => S754_zero false
  | Zpos p => S754_finite false p 0
  | Zneg p => S754_finite true p 0
  end.

(** [a / b] for two ints, [b] not zero: the quotient rounded once to the
    nearest binary64; [None] when it is out of range (OverflowError). *)
Definition int_truediv (a b : Z) : option float :=
  match SFdiv prec emax (Z2SF a) (Z2SF b) with
  | S754_infinity _ => None
  | q => Some (SF2Prim q)
  end.

(** [sum(xs)] over floats: left to right from [0], each addition rounded
    (CPython 3.12 and later also carry a correction term for the rounding
    errors of the running sum; the two agree whenever the additions are
    exact). *)
Definition float_sum (xs : list float) : float :=
  fold_left PrimFloat.add xs 0%float.

(** [sum(xs) / len(xs)]. *)
Definition float_mean (xs : list float) : float :=
  PrimFloat.div (float_sum xs) (Z2float (Z.of_nat (List.length xs))).

(** ** Python values decoded from JSON *)

Inductive pyval : Type :=
| PyNone
| PyBool (b : bool)
| PyInt (z : Z)
| PyFloat (x : float)
| PyStr (s : string)
| PyList (items : list pyval)
| PyDict (items : list (string * pyval)).

Definition type_name (v : pyval) : string :=
  match v with
  | PyNone => "NoneType"
  | PyBool _ => "bool"
  | PyInt _ => "int"
  | PyFloat _ => "float"
  | PyStr _ => "str"
  | PyList _ => "list"
  | PyDict _ => "dict"
  end.

Definition py_truthy (v : pyval) : bool :=
  match v with
  | PyNone => false
  | PyBool b => b
  | PyInt z => negb (z =? 0)
  | PyFloat x => float_truthy x
  | PyStr s => str_truthy s
  | PyList items => match items with [] => false | _ :: _ => true end
  | PyDict items => match items with [] => false | _ :: _ => true end
  end.

Definition py_is_none (v : pyval) : bool :=
  match v with PyNone => true | _ => false end.

(** [v != s] for a string literal [s]. *)
Definition py_ne_str (v : pyval) (s : string) : bool :=
  match v with
  | PyStr s' => negb (String.eqb s' s)
  | _ => true
  end.

Fixpoint lookup {A : Type} (key : string) (items : list (string * A)) : option A :=
  match items with
  | [] => None
  | (k, v) :: rest => if String.eqb k key then Some v else lookup key rest
  end.

(** ** Exceptions *)

(** An exception the handler can meet: an instance of a subclass of
    [Exception], with its class name. [msg] is [str(e)]. There is no class
    [mapbox.errors.MapboxAPIError] an exception could be an instance of.
    What is not an [Exception] (KeyboardInterrupt, SystemExit) is not a
    fault of a lookup and is left out. *)
Inductive exn : Type :=
| OtherException (cls : string) (msg : string).

Definition exn_str (e : exn) : string :=
  match e with
  | OtherException _ msg => msg
  end.

Definition AttributeError (msg : string) : exn := OtherException "AttributeError" msg.
Definition TypeError (msg : string) : exn := OtherException "TypeError" msg.
Definition KeyError (msg : string) : exn := OtherException "KeyError" msg.
Definition IndexError (msg : string) : exn := OtherException "IndexError" msg.
Definition ValueError (msg : string) : exn := OtherException "ValueError" msg.
Definition OverflowError (msg : string) : exn := OtherException "OverflowError" msg.

Inductive outcome (A : Type) : Type :=
| Raise (e : exn)
| Return (a : A).
Arguments Raise {A} e.
Arguments Return {A} a.

(** [d.get(key)]. *)
Definition py_get (d : pyval) (key : string) : outcome pyval :=
  match d with
  | PyDict items =>
      Return (match lookup key items with Some v => v | None => PyNone end)
  | _ => Raise (AttributeError
                  ("'" ++ type_name d ++ "' object has no attribute 'get'"))
  end.

(** [d.get(key, default)]. *)
Definition py_get_default (d : pyval) (key : string) (default : pyval) : outcome pyval :=
  match d with
  | PyDict items =>
      Return (match lookup key items with Some v => v | None => default end)
  | _ => Raise (AttributeError
                  ("'" ++ type_name d ++ "' object has no attribute 'get'"))
  end.

(** [d[key]] for a string key. *)
Definition py_getitem (d : pyval) (key : string) : outcome pyval :=
  match d with
  | PyDict items =>
      match lookup key items with
      | Some v => Return v
      | None => Raise (KeyError ("'" ++ key ++ "'"))
      end
  | PyList _ => Raise (TypeError "list indices must be integers or slices, not str")
  | PyStr _ => Raise (TypeError "string indices must be integers, not 'str'")
  | _ => Raise (TypeError ("'" ++ type_name d ++ "' object is not subscriptable"))
  end.

(** [v[0]]. *)
Definition py_getitem0 (v : pyval) : outcome pyval :=
  match v with
  | PyList (x :: _) => Return x
  | PyList [] => Raise (IndexError "list index out of range")
  | PyStr (String c _) => Return (PyStr (String c ""))
  | PyStr EmptyString => Raise (IndexError "string index out of range")
  | PyDict _ => Raise (KeyError "0")
  | _ => Raise (TypeError ("'" ++ type_name v ++ "' object is not subscriptable"))
  end.

(** [int(duration_seconds // 60)]. A [bool] is an [int]. *)
Definition minutes_of (duration_seconds : pyval) : outcome Z :=
  match duration_seconds with
  | PyBool b => Return ((if b then 1 else 0) / 60)
  | PyInt z => Return (z / 60)
  | PyFloat x =>
      let q := float_floordiv x 60%float in
      match float_trunc q with
      | Some m => Return m
      | None =>
          if is_nan q
          then Raise (ValueError "cannot convert float NaN to integer")
          else Raise (OverflowError "cannot convert float infinity to integer")
      end
  | _ => Raise (TypeError ("unsupported operand type(s) for //: '" ++
                           type_name duration_seconds ++ "' and 'int'"))
  end.

(** [distance_meters / 1000]. *)
Definition km_of (distance_meters : pyval) : outcome float :=
  let int_case (z : Z) :=
    match int_truediv z 1000 with
    | Some q => Return q
    | None => Raise (OverflowError "integer division result too large for a float")
    end in
  match distance_meters with
  | PyBool b => int_case (if b then 1 else 0)
  | PyInt z => int_case z
  | PyFloat x => Return (PrimFloat.div x 1000%float)
  | _ => Raise (TypeError ("unsupported operand type(s) for /: '" ++
                           type_name distance_meters ++ "' and 'int'"))
  end.

(** ** State and exceptions

    A computation reads and writes a state of type [S] and either returns
    or raises; the state a raise leaves behind is kept, as a Python object
    mutated before the raise is. *)

Definition M (S A : Type) : Type := S -> outcome A * S.

Definition ret {S A : Type} (a : A) : M S A := fun s => (Return a, s).

Definition bind {S A B : Type} (c : M S A) (k : A -> M S B) : M S B :=
  fun s =>
    match c s with
    | (Raise e, s') => (Raise e, s')
    | (Return a, s') => k a s'
    end.

Definition lift {S A : Type} (o : outcome A) : M S A := fun s => (o, s).

Definition modify {S : Type} (f : S -> S) : M S unit := fun s => (Return tt, f s).

(** [try: body / except Exception as e: handler e]. *)
Definition try_except {S A : Type} (body : M S A) (handler : exn -> M S A) : M S A :=
  fun s =>
    match body s with
    | (Raise e, s') => handler e s'
    | (Return a, s') => (Return a, s')
    end.

Notation "x <- c ;; k" := (bind c (fun x => k))
  (at level 61, c at next level, right associativity).
Notation "c ;; k" := (bind c (fun _ => k))
  (at level 61, right associativity).

(** ** Data model *)

(** A row of [csv_data_df] after cleaning. [Name] and [Details] are [None]
    when the column is missing or the cell is NaN, else [str] of the cell. *)
Record row : Type := {
  LAT : float;
  LON : float;
  Disease : string;
  Name : option string;
  Details : option string
}.

(** The module-level state the view reads. *)
Record store : Type := {
  data_load_success : bool;
  csv_data_df : list row
}.

Inductive http_method : Type := GET | POST.

Record request : Type := {
  method : http_method;
  form : list (string * string)
}.

(** The dict [location_info]; a key that may be missing is an [option]. *)
Record location : Type := {
  lat : float;
  lon : float;
  disease_info : string;
  travel_time_text : string;
  travel_distance_text : string;
  route_geometry_encoded : pyval;
  name : option string;
  details : option string
}.

(** The arguments of [render_template] (the token apart). *)
Record view : Type := {
  locations : list location;
  search_disease : option string;
  map_center : list float;
  map_zoom : Z;
  user_lat : option float;
  user_lon : option float
}.

(** One call of [directions_client.directions]. *)
Record api_call : Type := {
  waypoints : list (float * float);
  profile : string;
  geometries : string;
  overview : string
}.

(** The response object: [raise_for_status ()] raises or not, [json ()]
    raises or returns the decoded body. *)
Record response : Type := {
  raise_for_status : option exn;
  json : outcome pyval
}.

Inductive call_result : Type :=
| CallRaises (e : exn)
| CallReturns (r : response).

(** The state of one pass of the loop: the calls made so far in the
    request and the dict being filled. *)
Record row_state : Type := {
  calls : list api_call;
  location_info : location
}.

Definition set_travel_time_text (t : string) : M row_state unit :=
  modify (fun st =>
    let i := location_info st in
    {| calls := calls st;
       location_info :=
         {| lat := lat i; lon := lon i; disease_info := disease_info i;
            travel_time_text := t;
            travel_distance_text := travel_distance_text i;
            route_geometry_encoded := route_geometry_encoded i;
            name := name i; details := details i |} |}).

Definition set_travel_distance_text (t : string) : M row_state unit :=
  modify (fun st =>
    let i := location_info st in
    {| calls := calls st;
       location_info :=
         {| lat := lat i; lon := lon i; disease_info := disease_info i;
            travel_time_text := travel_time_text i;
            travel_distance_text := t;
            route_geometry_encoded := route_geometry_encoded i;
            name := name i; details := details i |} |}).

Definition set_route_geometry_encoded (g : pyval) : M row_state unit :=
  modify (fun st =>
    let i := location_info st in
    {| calls := calls st;
       location_info :=
         {| lat := lat i; lon := lon i; disease_info := disease_info i;
            travel_time_text := travel_time_text i;
            travel_distance_text := travel_distance_text i;
            route_geometry_encoded := g;
            name := name i; details := details i |} |}).

(** [request.form.get(key)]. *)
Definition form_get (req : request) (key : string) : option string :=
  lookup key (form req).

Definition is_empty {A : Type} (l : list A) : bool :=
  match l with [] => true | _ :: _ => false end.

(** Lines 204-214: the text for a number of minutes. *)
Definition format_minutes (minutes : Z) : string :=
  let hours := minutes / 60 in
  let remaining_minutes := minutes mod 60 in
  if hours >? 0
  then str_of_int hours ++ " hr " ++ str_of_int remaining_minutes ++ " min (driving)"
  else str_of_int minutes ++ " min (driving)".

(** Lines 204-214: the value assigned to [travel_time_text]. *)
Definition time_text (duration_seconds : pyval) : outcome string :=
  if negb (py_is_none duration_seconds) then
    match minutes_of duration_seconds with
    | Return minutes => Return (format_minutes minutes)
    | Raise e => Raise e
    end
  else Return "Time N/A".

(** Lines 216-221: the value assigned to [travel_distance_text]. *)
Definition distance_text (distance_meters : pyval) : outcome string :=
  if negb (py_is_none distance_meters) then
    match km_of distance_meters with
    | Return distance_km => Return (format_2f distance_km ++ " km (driving)")
    | Raise e => Raise e
    end
  else Return "Distance N/A".

(** Line 110. *)
Definition default_center : list float := [77.0267093%float; 11.0285484%float].

(** ** Notions the statements use *)

(** [l1] is [l2] with some elements left out, the order kept. *)
Inductive subsequence {A : Type} : list A -> list A -> Prop :=
| subseq_nil : subsequence [] []
| subseq_skip : forall x l1 l2, subsequence l1 l2 -> subsequence l1 (x :: l2)
| subseq_keep : forall x l1 l2, subsequence l1 l2 -> subsequence (x :: l1) (x :: l2).

(** [cell] has a piece that is [t] up to the case of its letters. *)
Definition contains_ignoring_case (t cell : string) : Prop :=
  exists before piece after,
    cell = before ++ piece ++ after /\ lower piece = lower t.

Fixpoint all_space (s : string) : bool :=
  match s with
  | EmptyString => true
  | String c s' => is_space c && all_space s'
  end.

Definition is_digit (c : ascii) : bool :=
  let n := nat_of_ascii c in ((48 <=? n)%nat && (n <=? 57)%nat).

Fixpoint all_digits (s : string) : bool :=
  match s with
  | EmptyString => true
  | String c s' => is_digit c && all_digits s'
  end.

(** [txt] is an optional minus sign, one or more digits, a point and
    exactly two digits. *)
Definition two_decimal_places (txt : string) : Prop :=
  exists sign int_part d1 d2,
    txt = sign ++ int_part ++ "." ++ String d1 (String d2 "") /\
    (sign = "" \/ sign = "-") /\
    int_part <> "" /\ all_digits int_part = true /\
    is_digit d1 = true /\ is_digit d2 = true.

(** A binary64 that is a number: neither NaN nor an infinity. *)
Definition float_finite (x : float) : bool :=
  match Prim2SF x with
  | S754_zero _ | S754_finite _ _ _ => true
  | _ => false
  end.

(** Two computations returned the same text. *)
Definition same_text (a b : outcome string) : bool :=
  match a, b with
  | Return s, Return t => String.eqb s t
  | _, _ => false
  end.

(** [f] holds at the [n] integers from [k] on. *)
Fixpoint all_from (f : Z -> bool) (k : Z) (n : nat) : bool :=
  match n with
  | O => true
  | S n' => f k && all_from f (k + 1) n'
  end.

(** A whole number of seconds gives the same text as a float and as an
    int. *)
Definition float_agrees_with_int (z : Z) : bool :=
  same_text (time_text (PyFloat (Z2float z))) (time_text (PyInt z)).

(** ** Stand-ins for the examples *)

Fixpoint digits_value (s : string) (acc : Z) : option Z :=
  match s with
  | EmptyString => Some acc
  | String c s' =>
      if is_digit c
      then digits_value s' (10 * acc + Z.of_nat (nat_of_ascii c - 48))
      else None
  end.

Fixpoint split_point (s : string) : string * string :=
  match s with
  | EmptyString => (EmptyString, EmptyString)
  | String c s' =>
      if Ascii.eqb c "."%char then (EmptyString, s')
      else let (a, b) := split_point s' in (String c a, b)
  end.

(** [float(s)] on a plain decimal literal (sign, digits, at most one
    point): the nearest binary64. Every other string is refused, which
    agrees with [float] on a string that has a letter other than those of
    the exponent, [inf] and [nan] forms. *)
Definition plain_decimal (s : string) : option float :=
  let (negative, body) :=
    match s with
    | String "-" r => (true, r)
    | String "+" r => (false, r)
    | _ => (false, s)
    end in
  let (int_part, frac_part) := split_point body in
  if str_truthy (int_part ++ frac_part) then
    match digits_value (int_part ++ frac_part) 0 with
    | Some n =>
        let x := match int_truediv n (10 ^ Z.of_nat (String.length frac_part)) with
                 | Some q => q
                 | None => infinity
                 end in
        Some (if negative then PrimFloat.opp x else x)
    | None => None
    end
  else None.

(** A stand-in for [repr]; no example prints a float or a container. *)
Definition repr_type_name (v : pyval) : string := "<" ++ type_name v ++ ">".

Definition mk_row (la lo : float) (d : string) : row :=
  {| LAT := la; LON := lo; Disease := d; Name := None; Details := None |}.

(** Three rows, two of them on malaria. *)
Definition three_rows : store :=
  {| data_load_success := true;
     csv_data_df := [ mk_row 10 20 "Malaria"; mk_row 50 60 "Flu";
                      mk_row 12 22 "cerebral malaria" ]%float |}.

Definition post (term : string) (coords : list (string * string)) : request :=
  {| method := POST; form := ("disease_name", term) :: coords |}.

Definition route_json (duration distance : pyval) : pyval :=
  PyDict [ ("code", PyStr "Ok");
           ("routes", PyList [ PyDict [ ("duration", duration);
                                        ("distance", distance);
                                        ("geometry", PyStr "_p~iF~ps|U") ] ]) ].

Definition ok_response (body : pyval) : call_result :=
  CallReturns {| raise_for_status := None; json := Return body |}.

(** A service that answers every call with the same route. *)
Definition steady_service (_ : nat) (_ : api_call) : call_result :=
  ok_response (route_json (PyFloat 125) (PyInt 4200)).

(** A service whose second call times out. *)
Definition flaky_service (k : nat) (_ : api_call) : call_result :=
  match k with
  | 1%nat => CallRaises (OtherException "ConnectionError" "timed out")
  | _ => ok_response (route_json (PyInt 3900) (PyFloat 4200))
  end.

(** A service that finds no route, as Mapbox reports it. *)
Definition no_route_service (_ : nat) (_ : api_call) : call_result :=
  ok_response (PyDict [ ("code", PyStr "NoRoute");
                        ("message", PyStr "No route found");
                        ("routes", PyList []) ]).

(** The two rows of [three_rows] on malaria. *)
Definition malaria_rows : list row :=
  [ mk_row 10 20 "Malaria"; mk_row 12 22 "cerebral malaria" ]%float.

(** The fault of [flaky_service]. *)
Definition timed_out : exn := OtherException "ConnectionError" "timed out".

(** The body [no_route_service] answers with. *)
Definition no_route_body : list (string * pyval) :=
  [ ("code", PyStr "NoRoute"); ("message", PyStr "No route found");
    ("routes", PyList []) ].

(** A search whose latitude is not a number. *)
Definition unparsed_latitude : request :=
  post "malaria" [("user_lat", "abc"); ("user_lon", "77.5")].

(** ** What the module reads when it starts *)

(** A cell of the frame [pd.read_csv] returns: missing (NaN), a number,
    or text. *)
Inductive cell : Type :=
| CNaN
| CNum (x : float)
| CText (s : string).

(** The frame: its column names and, row by row, the cell under each
    column name. *)
Record frame : Type := {
  columns : list string;
  records : list (string -> cell)
}.

(** The outside of lines 17-53: [os.getenv('MAPBOX_TOKEN')], what
    [Directions(access_token=...)] did, and what [pd.read_csv] did (a
    missing file is one of the exceptions it raises). *)
Record environment : Type := {
  MAPBOX_TOKEN : option string;
  client_init : outcome unit;
  read_csv : outcome frame
}.

(** A row of a frame given by its cells; a column not listed is NaN. *)
Definition record_of (cells : list (string * cell)) : string -> cell :=
  fun col => match lookup col cells with Some c => c | None => CNaN end.

(** A file of four rows: one with a latitude that is not a number, one
    with no disease, and a name column filled for the first row only. *)
Definition clinic_frame : frame :=
  {| columns := ["LAT"; "LON"; "Disease"; "Name"];
     records :=
       [ record_of [("LAT", CText "10"); ("LON", CText "20");
                    ("Disease", CText "Malaria"); ("Name", CText "Dr. A")];
         record_of [("LAT", CText "north"); ("LON", CText "60");
                    ("Disease", CText "Flu")];
         record_of [("LAT", CText "12"); ("LON", CText "22");
                    ("Disease", CText "cerebral malaria")];
         record_of [("LAT", CText "14"); ("LON", CText "24")] ] |}.

(** A file whose coordinates are all unusable. *)
Definition unusable_frame : frame :=
  {| columns := ["LAT"; "LON"; "Disease"];
     records :=
       [ record_of [("LAT", CText "north"); ("LON", CText "60");
                    ("Disease", CText "Flu")];
         record_of [("LON", CText "22"); ("Disease", CText "Malaria")] ] |}.

Definition clinic_environment (f : frame) : environment :=
  {| MAPBOX_TOKEN := Some "pk.test"; client_init := Return tt;
     read_csv := Return f |}.

(** A route whose distance is text. *)
Definition bad_distance_route : list (string * pyval) :=
  [ ("duration", PyFloat 125); ("distance", PyStr "far");
    ("geometry", PyStr "_p~iF~ps|U") ].

Definition bad_distance_service (_ : nat) (_ : api_call) : call_result :=
  ok_response (PyDict [ ("code", PyStr "Ok");
                        ("routes", PyList [ PyDict bad_distance_route ]) ]).

(** A route with a distance and nothing else. *)
Definition distance_only_route : list (string * pyval) :=
  [ ("distance", PyInt 4200) ].

Definition distance_only_service (_ : nat) (_ : api_call) : call_result :=
  ok_response (PyDict [ ("code", PyStr "Ok");
                        ("routes", PyList [ PyDict distance_only_route ]) ]).

(** A service whose body is a JSON array. *)
Definition array_service (_ : nat) (_ : api_call) : call_result :=
  ok_response (PyList [ PyInt 1 ]).

(** The table [clinic_frame] is loaded as: the row with the latitude
    "north" is dropped, the row with no disease has an empty one. *)
Definition clinic_store : store :=
  {| data_load_success := true;
     csv_data_df :=
       [ {| LAT := 10; LON := 20; Disease := "Malaria";
            Name := Some "Dr. A"; Details := None |};
         {| LAT := 12; LON := 22; Disease := "cerebral malaria";
            Name := None; Details := None |};
         {| LAT := 14; LON := 24; Disease := "";
            Name := None; Details := None |} ]%float |}.

(** The table [unusable_frame] is loaded as. *)
Definition empty_store : store :=
  {| data_load_success := true; csv_data_df := [] |}.

(** The failure of [distance_meters / 1000] on a text. *)
Definition text_distance_error : exn :=
  TypeError "unsupported operand type(s) for /: 'str' and 'int'".

(** A search with a user at (12.0, 77.5). *)
Definition located_search : request :=
  post "malaria" [("user_lat", "12.0"); ("user_lon", "77.5")].

(** What [raise_for_status] raises on the status 422. *)
Definition unprocessable : exn :=
  OtherException "HTTPError" "422 Client Error: Unprocessable Entity".

(** A service that refuses every call as Mapbox does: status 422 and a
    body that reports the code "InvalidInput". *)
Definition refusal : response :=
  {| raise_for_status := Some unprocessable;
     json := Return (PyDict [ ("code", PyStr "InvalidInput");
                              ("message", PyStr "Coordinate is invalid") ]) |}.

Definition invalid_input_service (_ : nat) (_ : api_call) : call_result :=
  CallReturns refusal.

(** The first row of [three_rows]. *)
Definition first_malaria_row : row := mk_row 10 20 "Malaria".




(** ** The view [index] *)

Section Handler.

(** [float(s)] for a [str]: [None] stands for ValueError. *)
Variable float_of_str : string -> option float.
(** [Series.mean ()] of a float column. *)
Variable series_mean : list float -> float.
(** [repr] of a float or of a container. *)
Variable py_repr : pyval -> string.
(** [directions_client.directions]: the answer to the call, given how
    many calls the request made before it. *)
Variable directions : nat -> api_call -> call_result.

(** [f"{v}"]. *)
Definition py_str (v : pyval) : string :=
  match v with
  | PyNone => "None"
  | PyBool b => if b then "True" else "False"
  | PyInt z => str_of_int z
  | PyStr s => s
  | _ => py_repr v
  end.

(** Lines 187-192. *)
Definition call_directions (c : api_call) : M row_state response :=
  fun st =>
    let st' := {| calls := calls st ++ [c]; location_info := location_info st |} in
    match directions (List.length (calls st)) c with
    | CallRaises e => (Raise e, st')
    | CallReturns r => (Return r, st')
    end.

(** Line 193. *)
Definition check_status (r : response) : M row_state unit :=
  match raise_for_status r with
  | Some e => lift (Raise e)
  | None => ret tt
  end.

(** Lines 187-236: the body of the [try]. *)
Definition route_lookup (user_location_mapbox doctor_location_mapbox : float * float)
  : M row_state unit :=
  response <- call_directions
                {| waypoints := [user_location_mapbox; doctor_location_mapbox];
                   profile := "mapbox/driving";
                   geometries := "polyline";
                   overview := "simplified" |} ;;
  check_status response ;;
  directions_result <- lift (json response) ;;
  has_routes <- lift (if py_truthy directions_result
                      then py_get directions_result "routes"
                      else Return directions_result) ;;
  if py_truthy has_routes then
    routes <- lift (py_getitem directions_result "routes") ;;
    route <- lift (py_getitem0 routes) ;;
    duration_seconds <- lift (py_get route "duration") ;;
    distance_meters <- lift (py_get route "distance") ;;
    route_geometry_encoded <- lift (py_get route "geometry") ;;
    t <- lift (time_text duration_seconds) ;;
    set_travel_time_text t ;;
    d <- lift (distance_text distance_meters) ;;
    set_travel_distance_text d ;;
    set_route_geometry_encoded route_geometry_encoded
  else
    is_error <- lift (if py_truthy directions_result
                      then match py_get directions_result "code" with
                           | Return code => Return (PyBool (py_ne_str code "Ok"))
                           | Raise e => Raise e
                           end
                      else Return directions_result) ;;
    if py_truthy is_error then
      error_code <- lift (py_get_default directions_result "code"
                            (PyStr "Unknown API Error")) ;;
      error_message_detail <- lift (py_get_default directions_result "message"
                                      (PyStr "")) ;;
      set_travel_time_text ("API Error: " ++ py_str error_code) ;;
      set_travel_distance_text ("API Error: " ++ py_str error_code)
    else
      set_travel_time_text "Route not found" ;;
      set_travel_distance_text "Route not found".

(** What evaluating [mapbox.errors.MapboxAPIError] raises: the module
    has no attribute of that name. *)
Definition mapbox_attribute_error : exn :=
  AttributeError "module 'mapbox.errors' has no attribute 'MapboxAPIError'".

(** Lines 238-245: the two [except] clauses. When the body raised [e],
    Python evaluates the expression of the first clause to compare the
    class of [e] with it; that evaluation raises
    [mapbox_attribute_error], which is raised outside the body and is
    caught by no clause of this [try]. The bodies of both clauses
    (lines 239-241 and 243-245) are never run, whatever [e] is. *)
Definition on_error (e : exn) : M row_state unit :=
  lift (Raise mapbox_attribute_error).

(** Lines 165-247: one pass of the loop with a user location; the dict is
    appended only if the [try] statement does not raise. When it raises,
    the exception leaves the loop and the view. *)
Definition process_row (user_location_mapbox : float * float) (r : row)
  : M (list api_call) location :=
  fun made =>
    let loc_lat := LAT r in
    let loc_lon := LON r in
    let doctor_location_mapbox := (loc_lon, loc_lat) in
    let info :=
      {| lat := loc_lat; lon := loc_lon; disease_info := Disease r;
         travel_time_text := "Calculating...";
         travel_distance_text := "Calculating...";
         route_geometry_encoded := PyNone;
         name := Name r; details := Details r |} in
    match try_except (route_lookup user_location_mapbox doctor_location_mapbox)
                     on_error
                     {| calls := made; location_info := info |} with
    | (Raise e, st) => (Raise e, calls st)
    | (Return _, st) => (Return (location_info st), calls st)
    end.

(** Lines 164-247: the loop. *)
Fixpoint enrich (user_location_mapbox : float * float) (rows : list row)
  : M (list api_call) (list location) :=
  match rows with
  | [] => ret []
  | r :: rest =>
      info <- process_row user_location_mapbox r ;;
      infos <- enrich user_location_mapbox rest ;;
      ret (info :: infos)
  end.

(** Lines 251-264: one row without a user location. *)
Definition basic_info (r : row) : location :=
  {| lat := LAT r; lon := LON r; disease_info := Disease r;
     travel_time_text := "Requires Location";
     travel_distance_text := "Requires Location";
     route_geometry_encoded := PyNone;
     name := Name r; details := Details r |}.

(** Lines 152-154: the rows whose disease cell has the term. *)
Definition filter_rows (df : list row) (search_disease_lower : string) : list row :=
  filter (fun r => str_contains_nocase search_disease_lower (Disease r)) df.

(** Lines 150-154: the query filter; with no term or no data the block
    is skipped, [found_locations] stays empty and nothing is selected. *)
Definition query_filter (db : store) (search_disease_lower : string) : list row :=
  if str_truthy search_disease_lower && data_load_success db
     && negb (is_empty (csv_data_df db))
  then filter_rows (csv_data_df db) search_disease_lower
  else [].

(** Lines 126-127 then the filter: the rows a submitted term selects. *)
Definition search (db : store) (disease_name : string) : list row :=
  query_filter db (lower (strip disease_name)).

(** [float(s) if s else None]; the outer [None] stands for ValueError. *)
Definition float_if_given (s : option string) : option (option float) :=
  match s with
  | Some text =>
      if str_truthy text
      then match float_of_str text with
           | Some x => Some (Some x)
           | None => None
           end
      else Some None
  | None => Some None
  end.

(** Lines 133-147: [user_lat] and [user_lon] after the [try]. *)
Definition read_user_location (user_lat_str user_lon_str : option string)
  : option float * option float :=
  match float_if_given user_lat_str with
  | None => (None, None)
  | Some user_lat =>
      match float_if_given user_lon_str with
      | None => (None, None)
      | Some user_lon => (user_lat, user_lon)
      end
  end.

(** Lines 110-121: center and zoom before the request is read. The mean
    of a float column does not raise, so the [except] is never entered. *)
Definition initial_center (db : store) : list float * Z :=
  if data_load_success db && negb (is_empty (csv_data_df db))
  then ([series_mean (map LON (csv_data_df db));
         series_mean (map LAT (csv_data_df db))], 10)
  else (default_center, 12).

(** Lines 101-289. *)
Definition index (db : store) (req : request) : M (list api_call) view :=
  let '(map_center0, map_zoom0) := initial_center db in
  match method req with
  | GET =>
      ret {| locations := []; search_disease := None;
             map_center := map_center0; map_zoom := map_zoom0;
             user_lat := None; user_lon := None |}
  | POST =>
      let search_disease :=
        strip (match form_get req "disease_name" with Some s => s | None => "" end) in
      let search_disease_lower := lower search_disease in
      let user_lat_str := form_get req "user_lat" in
      let user_lon_str := form_get req "user_lon" in
      let '(user_lat, user_lon) := read_user_location user_lat_str user_lon_str in
      let '(map_center1, map_zoom1) :=
        match user_lat, user_lon with
        | Some la, Some lo => ([lo; la], 13)
        | _, _ => (map_center0, map_zoom0)
        end in
      let filtered_df := query_filter db search_disease_lower in
      found_locations <-
        (if negb (is_empty filtered_df) then
           match user_lat, user_lon with
           | Some la, Some lo => enrich (lo, la) filtered_df
           | _, _ => ret (map basic_info filtered_df)
           end
         else ret []) ;;
      let '(map_center2, map_zoom2) :=
        if negb (is_empty found_locations)
           && (match user_lat with None => true | Some _ => false end
               || match user_lon with None => true | Some _ => false end)
        then ([float_mean (map lon found_locations);
               float_mean (map lat found_locations)], 13)
        else (map_center1, map_zoom1) in
      ret {| locations := found_locations; search_disease := Some search_disease;
             map_center := map_center2; map_zoom := map_zoom2;
             user_lat := user_lat; user_lon := user_lon |}
  end.

(** The page a request gets if the view returns ([None]: the view raised
    and the request ends without a page, which Flask answers with status
    500), and the calls the request made. *)
Definition rendered (db : store) (req : request) : option view :=
  match fst (index db req []) with
  | Return v => Some v
  | Raise _ => None
  end.

Definition calls_made (db : store) (req : request) : list api_call :=
  snd (index db req []).

(** *** Notions the statements about a row use *)

(** The call the loop makes for a row. *)
Definition route_request (user_location_mapbox : float * float) (r : row) : api_call :=
  {| waypoints := [user_location_mapbox; (LON r, LAT r)];
     profile := "mapbox/driving";
     geometries := "polyline";
     overview := "simplified" |}.

(** The first route of a decoded body that is an object with a non-empty
    list of routes, the first of them an object. *)
Definition first_route (body : pyval) : option (list (string * pyval)) :=
  match body with
  | PyDict items =>
      match lookup "routes" items with
      | Some (PyList (PyDict route :: _)) => Some route
      | _ => None
      end
  | _ => None
  end.

Definition field (items : list (string * pyval)) (key : string) : pyval :=
  match lookup key items with Some v => v | None => PyNone end.

(** The lookup failed with the exception [e]: the call raised it, or the
    status check did, or decoding the body did. *)
Definition fails_with (answer : call_result) (e : exn) : Prop :=
  answer = CallRaises e \/
  (exists resp, answer = CallReturns resp /\ raise_for_status resp = Some e) \/
  (exists resp, answer = CallReturns resp /\ raise_for_status resp = None /\
                json resp = Raise e).

(** The call came back with a good status and the decoded body [body]. *)
Definition answers_body (answer : call_result) (body : pyval) : Prop :=
  exists resp, answer = CallReturns resp /\ raise_for_status resp = None /\
               json resp = Return body.

(** The call came back with a good status and a body whose first route
    gives the texts [t] and [d]. *)
Definition answers_route (answer : call_result) (t d : string) : Prop :=
  exists body route,
    answers_body answer body /\
    first_route body = Some route /\
    time_text (field route "duration") = Return t /\
    distance_text (field route "distance") = Return d.

(** The decoded object has no route: no [routes] key, or a value that is
    false (null, an empty list). *)
Definition no_routes (items : list (string * pyval)) : bool :=
  negb (py_truthy (field items "routes")).

(** The dict a row ends as, given its two texts and its geometry. *)
Definition with_result (r : row) (t d : string) (g : pyval) : location :=
  {| lat := LAT r; lon := LON r; disease_info := Disease r;
     travel_time_text := t; travel_distance_text := d;
     route_geometry_encoded := g; name := Name r; details := Details r |}.

(** What the request submits: the stripped term, the user location as the
    view reads it, and the rows the term selects. *)
Definition disease_name_field (req : request) : string :=
  match form_get req "disease_name" with Some s => s | None => "" end.

Definition submitted_term (req : request) : string :=
  strip (disease_name_field req).

Definition submitted_location (req : request) : option float * option float :=
  read_user_location (form_get req "user_lat") (form_get req "user_lon").

Definition matches (db : store) (req : request) : list row :=
  query_filter db (lower (submitted_term req)).

(** The request gives no usable user location: it is a GET, or one of the
    two coordinates is [None] after the form is read. *)
Definition no_location (req : request) : Prop :=
  method req = GET \/
  exists a b, submitted_location req = (a, b) /\ (a = None \/ b = None).

(** The table has rows the view can use. *)
Definition has_data (db : store) : bool :=
  data_load_success db && negb (is_empty (csv_data_df db)).

(** ** Start-up: lines 17-95 *)

(** [pd.to_numeric] on a text cell with [errors='coerce']: [None] stands
    for a text that is coerced to NaN. *)
Variable to_numeric_text : string -> option float.

(** Lines 69-70: [pd.to_numeric(..., errors='coerce')] on one cell. *)
Definition to_numeric (c : cell) : float :=
  match c with
  | CNaN => nan
  | CNum x => x
  | CText s => match to_numeric_text s with Some x => x | None => nan end
  end.

(** [col in df.columns]. *)
Definition has_column (f : frame) (col : string) : bool :=
  existsb (String.eqb col) (columns f).

(** Lines 57-60. *)
Definition required_columns : list string := ["LAT"; "LON"; "Disease"].

Definition missing_required_columns (f : frame) : list string :=
  filter (fun col => negb (has_column f col)) required_columns.

(** [str(c)] for a cell. *)
Definition cell_str (c : cell) : string :=
  match c with
  | CNaN => "nan"
  | CNum x => py_repr (PyFloat x)
  | CText s => s
  end.

(** Lines 179-182 and 260-263: an optional column gives a value when the
    frame has it and the cell is not NaN. *)
Definition optional_cell (f : frame) (col : string) (r : string -> cell)
  : option string :=
  if has_column f col
  then match r col with
       | CNaN => None
       | c => Some (cell_str c)
       end
  else None.

(** Line 72: [dropna] keeps a row when neither coordinate is NaN. *)
Definition coordinates_valid (r : string -> cell) : bool :=
  negb (is_nan (to_numeric (r "LAT"))) && negb (is_nan (to_numeric (r "LON"))).

(** Lines 69-77 on one row that is kept: numeric coordinates, and a
    disease that is text, empty when the cell is missing. *)
Definition clean_row (f : frame) (r : string -> cell) : row :=
  {| LAT := to_numeric (r "LAT");
     LON := to_numeric (r "LON");
     Disease := match r "Disease" with
                | CNaN => ""
                | c => cell_str c
                end;
     Name := optional_cell f "Name" r;
     Details := optional_cell f "Details" r |}.

(** Lines 56-82: [None] stands for [sys.exit(1)]. *)
Definition load_frame (f : frame) : option (list row) :=
  match missing_required_columns f with
  | [] => Some (map (clean_row f) (filter coordinates_valid (records f)))
  | _ :: _ => None
  end.

(** Line 18, negated: the token is set, not empty and not the
    placeholder. *)
Definition token_usable (token : option string) : bool :=
  match token with
  | Some t => str_truthy t && negb (String.eqb t "YOUR_MAPBOX_ACCESS_TOKEN")
  | None => false
  end.

(** Lines 17-95: the store the view is served with; [None] stands for
    [sys.exit(1)]. [SystemExit] is not an [Exception], so the exit on
    missing columns passes the [except] clauses of lines 84-91. *)
Definition startup (env : environment) : option store :=
  if token_usable (MAPBOX_TOKEN env) then
    match client_init env with
    | Raise _ => None
    | Return _ =>
        match read_csv env with
        | Raise _ => None
        | Return f =>
            match load_frame f with
            | Some rows => Some {| data_load_success := true; csv_data_df := rows |}
            | None => None
            end
        end
    end
  else None.

(** *** Notions the added statements use *)

(** The dict shows the row it was made from. *)
Definition mirrors (l : location) (r : row) : Prop :=
  lat l = LAT r /\ lon l = LON r /\ disease_info l = Disease r /\
  name l = Name r /\ details l = Details r.

(** The call is the one for the user at [(la, lo)] and the row [r]:
    longitude first, driving, an encoded simplified path. *)
Definition call_for (la lo : float) (c : api_call) (r : row) : Prop :=
  waypoints c = [(lo, la); (LON r, LAT r)] /\
  profile c = "mapbox/driving" /\
  geometries c = "polyline" /\ overview c = "simplified".

(** The answer has a good status and a body whose first route is
    [route]. *)
Definition answers_first_route (answer : call_result)
  (route : list (string * pyval)) : Prop :=
  exists body, answers_body answer body /\ first_route body = Some route.

(** * Facts *)

(** ** Strings *)

Ltac each_char c := destruct c as [[] [] [] [] [] [] [] []].

Lemma upper_lower_char (c : ascii) : upper_char (lower_char c) = upper_char c.
Proof. each_char c; reflexivity. Qed.

Lemma lower_upper_char (c : ascii) : lower_char (upper_char c) = lower_char c.
Proof. each_char c; reflexivity. Qed.


Lemma is_space_lower_char (c : ascii) : is_space (lower_char c) = is_space c.
Proof. each_char c; reflexivity. Qed.

Lemma str_map_compose (f g h : ascii -> ascii) (s : string) :
  (forall c, f (g c) = h c) -> str_map f (str_map g s) = str_map h s.
Proof.
  intros Hc. induction s as [|c s IH]; simpl; [reflexivity|].
  now rewrite Hc, IH.
Qed.

Lemma upper_lower (s : string) : upper (lower s) = upper s.
Proof. apply str_map_compose, upper_lower_char. Qed.

Lemma lower_upper (s : string) : lower (upper s) = lower s.
Proof. apply str_map_compose, lower_upper_char. Qed.


Lemma str_map_app (f : ascii -> ascii) (a b : string) :
  str_map f (a ++ b) = str_map f a ++ str_map f b.
Proof. induction a as [|c a IH]; simpl; [reflexivity|now rewrite IH]. Qed.

(** A mapped string splits where its image splits. *)
Lemma str_map_split (f : ascii -> ascii) (s a' b' : string) :
  str_map f s = a' ++ b' ->
  exists a b, s = a ++ b /\ str_map f a = a' /\ str_map f b = b'.
Proof.
  revert s. induction a' as [|c a' IH]; intros s H.
  - exists EmptyString, s. auto.
  - destruct s as [|x s]; simpl in H; [discriminate|].
    injection H as Hc Hs. destruct (IH _ Hs) as (a & b & -> & Ha & Hb).
    exists (String x a), b. simpl. now rewrite Hc, Ha.
Qed.

Lemma str_truthy_map (f : ascii -> ascii) (s : string) :
  str_truthy (str_map f s) = str_truthy s.
Proof. now destruct s. Qed.

Lemma lstrip_lower (s : string) : lstrip (lower s) = lower (lstrip s).
Proof.
  induction s as [|c s IH]; [reflexivity|].
  change (lower (String c s)) with (String (lower_char c) (lower s)).
  simpl. rewrite is_space_lower_char. now destruct (is_space c).
Qed.

Lemma rstrip_lower (s : string) : rstrip (lower s) = lower (rstrip s).
Proof.
  induction s as [|c s IH]; [reflexivity|].
  change (lower (String c s)) with (String (lower_char c) (lower s)).
  simpl. rewrite IH, is_space_lower_char.
  unfold lower at 1. rewrite str_truthy_map.
  now destruct (is_space c && negb (str_truthy (rstrip s))).
Qed.

Lemma strip_lower (s : string) : strip (lower s) = lower (strip s).
Proof. unfold strip. now rewrite lstrip_lower, rstrip_lower. Qed.

Lemma lstrip_all_space (s : string) : all_space s = true -> lstrip s = "".
Proof.
  induction s as [|c s IH]; simpl; [reflexivity|].
  intros H. apply andb_true_iff in H as [-> Hs]. auto.
Qed.

Lemma strip_all_space (s : string) : all_space s = true -> strip s = "".
Proof. intros H. unfold strip. now rewrite lstrip_all_space. Qed.

Lemma prefix_app (p s : string) :
  prefix p s = true <-> exists b, s = p ++ b.
Proof.
  revert s. induction p as [|c p IH]; intros s.
  - destruct s; simpl; split; eauto.
  - destruct s as [|x s]; simpl.
    + split; [discriminate|]. intros [b Hb]. discriminate.
    + destruct (ascii_dec c x) as [Heq|Hne].
      * rewrite IH. split; intros [b Hb]; exists b; congruence.
      * split; [discriminate|]. intros [b Hb]. congruence.
Qed.

Lemma str_in_app (p s : string) :
  str_in p s = true <-> exists a b, s = a ++ p ++ b.
Proof.
  induction s as [|x s IH].
  - cbn [str_in]. rewrite orb_false_r, prefix_app. split.
    + intros [b Hb]. exists EmptyString, b. exact Hb.
    + intros (a & b & H). destruct a; [now exists b|discriminate].
  - cbn [str_in]. rewrite orb_true_iff, IH, prefix_app. split.
    + intros [[b Hb] | (a & b & Hab)].
      * exists EmptyString, b. exact Hb.
      * exists (String x a), b. simpl. now rewrite Hab.
    + intros (a & b & H). destruct a as [|y a].
      * left. now exists b.
      * right. simpl in H. injection H as _ H. now exists a, b.
Qed.

(** The test pandas makes is the containment the statement speaks of. *)
Lemma str_contains_nocase_iff (t cell : string) :
  str_contains_nocase t cell = true <-> contains_ignoring_case t cell.
Proof.
  unfold str_contains_nocase, contains_ignoring_case. rewrite str_in_app. split.
  - intros (a' & b' & H).
    destruct (str_map_split _ _ _ _ H) as (a & rest & -> & Ha & Hrest).
    destruct (str_map_split _ _ _ _ Hrest) as (p & b & -> & Hp & Hb).
    exists a, p, b. split; [reflexivity|].
    rewrite <- (lower_upper p), <- (lower_upper t). now f_equal.
  - intros (a & p & b & -> & Hp).
    exists (upper a), (upper b). unfold upper. rewrite !str_map_app.
    do 2 f_equal. change (upper p = upper t).
    rewrite <- (upper_lower p), <- (upper_lower t). now f_equal.
Qed.

Lemma length_app (a b : string) :
  String.length (a ++ b) = (String.length a + String.length b)%nat.
Proof. induction a as [|c a IH]; simpl; [reflexivity|now rewrite IH]. Qed.

Lemma filter_subsequence {A : Type} (p : A -> bool) (l : list A) :
  subsequence (filter p l) l.
Proof.
  induction l as [|x l IH]; simpl; [constructor|].
  destruct (p x); now constructor.
Qed.

(** ** The texts a row can end with *)

Lemma minutes_suffix_not_pending (a : string) : a ++ " min (driving)" <> "Calculating...".
Proof.
  intros H. destruct a as [|c a]; [discriminate|].
  apply (f_equal String.length) in H. rewrite length_app in H. simpl in H. lia.
Qed.

Lemma km_suffix_not_pending (a : string) : a ++ " km (driving)" <> "Calculating...".
Proof.
  intros H. destruct a as [|c [|c' a]]; try discriminate.
  apply (f_equal String.length) in H. simpl in H. rewrite length_app in H.
  simpl in H. lia.
Qed.

Lemma format_minutes_not_pending (m : Z) : format_minutes m <> "Calculating...".
Proof.
  unfold format_minutes. destruct (m / 60 >? 0).
  - intros H. apply (f_equal String.length) in H.
    rewrite !length_app in H. simpl in H. lia.
  - apply minutes_suffix_not_pending.
Qed.

Lemma time_text_not_pending (v : pyval) (t : string) :
  time_text v = Return t -> t <> "Calculating...".
Proof.
  unfold time_text. destruct (py_is_none v); simpl.
  - intros [= <-]. discriminate.
  - destruct (minutes_of v); [discriminate|].
    intros [= <-]. apply format_minutes_not_pending.
Qed.

Lemma distance_text_not_pending (v : pyval) (d : string) :
  distance_text v = Return d -> d <> "Calculating...".
Proof.
  unfold distance_text. destruct (py_is_none v); simpl.
  - intros [= <-]. discriminate.
  - destruct (km_of v); [discriminate|].
    intros [= <-]. apply km_suffix_not_pending.
Qed.

(** ** One pass of the loop *)

(** Case analysis on the innermost [match] of the goal. *)
Ltac break_match :=
  match goal with
  | |- context [match ?x with _ => _ end] =>
      lazymatch x with
      | context [match _ with _ => _ end] => fail
      | _ => destruct x eqn:?
      end
  end.

(** Unfold one pass down to the answer of the service. *)
Ltac run_row origin r :=
  unfold process_row, try_except, route_lookup;
  cbv [bind call_directions check_status lift ret modify set_travel_time_text
       set_travel_distance_text set_route_geometry_encoded on_error
       calls location_info];
  fold (route_request origin r).

(** Whatever the service does, the pass makes one call. Then it raises
    the AttributeError of line 238, or it returns a dict that keeps the
    fields of the row and has both texts replaced. *)
Lemma process_row_cases origin r made :
  process_row origin r made =
    (Raise mapbox_attribute_error, (made ++ [route_request origin r])%list) \/
  exists li,
    process_row origin r made = (Return li, (made ++ [route_request origin r])%list) /\
    mirrors li r /\
    travel_time_text li <> "Calculating..." /\
    travel_distance_text li <> "Calculating...".
Proof.
  run_row origin r.
  repeat break_match;
    first [ left; reflexivity
          | right; eexists; split; [reflexivity|]; cbn;
            split; [repeat split|];
            split;
            eauto using time_text_not_pending, distance_text_not_pending;
            discriminate ].
Qed.

(** A fault of the lookup ends the pass with the AttributeError of line
    238: no dict is made. *)
Lemma process_row_fault origin r made e :
  fails_with (directions (List.length made) (route_request origin r)) e ->
  process_row origin r made =
  (Raise mapbox_attribute_error, (made ++ [route_request origin r])%list).
Proof.
  intros [H | [(resp & H & Hs) | (resp & H & Hs & Hj)]]; run_row origin r; rewrite H.
  - reflexivity.
  - rewrite Hs. reflexivity.
  - rewrite Hs, Hj. reflexivity.
Qed.

Lemma lookup_truthy (items : list (string * pyval)) (key : string) (v : pyval) :
  lookup key items = Some v -> py_truthy (PyDict items) = true.
Proof. destruct items; [discriminate|reflexivity]. Qed.

(** A route leaves the texts computed from its duration and distance. *)
Lemma process_row_route origin r made t d :
  answers_route (directions (List.length made) (route_request origin r)) t d ->
  exists g,
    process_row origin r made =
    (Return (with_result r t d g), (made ++ [route_request origin r])%list).
Proof.
  intros (body & route & (resp & H & Hs & Hj) & Hroute & Ht & Hd).
  destruct body as [| | | | | |items]; try discriminate.
  unfold first_route in Hroute.
  destruct (lookup "routes" items) as [[| | | | |[|[| | | | | |route'] rest]|]|] eqn:Hl;
    try discriminate.
  injection Hroute as ->.
  exists (field route "geometry").
  run_row origin r. rewrite H, Hs, Hj, (lookup_truthy _ _ _ Hl).
  unfold py_get at 1. rewrite Hl. cbn [py_truthy].
  unfold py_getitem. rewrite Hl. cbn [py_getitem0 py_get].
  fold (field route "duration") (field route "distance") (field route "geometry").
  rewrite Ht, Hd. reflexivity.
Qed.

(** A body that is false takes the last branch. *)
Lemma process_row_falsy_body origin r made body :
  answers_body (directions (List.length made) (route_request origin r)) body ->
  py_truthy body = false ->
  process_row origin r made =
  (Return (with_result r "Route not found" "Route not found" PyNone),
   (made ++ [route_request origin r])%list).
Proof.
  intros (resp & H & Hs & Hj) Hb. run_row origin r.
  rewrite H, Hs, Hj, Hb. cbn match. rewrite Hb. reflexivity.
Qed.

(** A non-empty object without a route: the code decides the text. *)
Lemma process_row_no_route origin r made items :
  answers_body (directions (List.length made) (route_request origin r)) (PyDict items) ->
  items <> [] ->
  no_routes items = true ->
  process_row origin r made =
  (let txt := match lookup "code" items with
              | Some code => if py_ne_str code "Ok"
                             then "API Error: " ++ py_str code
                             else "Route not found"
              | None => "API Error: Unknown API Error"
              end in
   Return (with_result r txt txt PyNone),
   (made ++ [route_request origin r])%list).
Proof.
  intros (resp & H & Hs & Hj) Hne Hno.
  assert (Ht : py_truthy (PyDict items) = true) by (destruct items; [congruence|reflexivity]).
  unfold no_routes, field in Hno. apply negb_true_iff in Hno.
  run_row origin r. rewrite H, Hs, Hj, Ht.
  unfold py_get, py_get_default. rewrite Hno.
  destruct (lookup "code" items) as [code|]; cbn match.
  - destruct (py_ne_str code "Ok"); reflexivity.
  - reflexivity.
Qed.

(** ** The loop *)

Lemma enrich_cons origin r0 rest made :
  enrich origin (r0 :: rest) made =
  match process_row origin r0 made with
  | (Raise e, made') => (Raise e, made')
  | (Return l0, made') =>
      match enrich origin rest made' with
      | (Raise e, made'') => (Raise e, made'')
      | (Return ls, made'') => (Return (l0 :: ls), made'')
      end
  end.
Proof.
  cbn [enrich]. unfold bind at 1.
  destruct (process_row origin r0 made) as [[e|l0] made']; [reflexivity|].
  unfold bind at 1.
  destruct (enrich origin rest made') as [[e|ls] made'']; reflexivity.
Qed.

(** When the loop returns, it made one call per row, in order, and gives
    one dict per row: the dict shows its row and has both texts
    replaced. *)
Lemma enrich_returned origin rows : forall made results made',
  enrich origin rows made = (Return results, made') ->
  made' = (made ++ map (route_request origin) rows)%list /\
  Forall2 mirrors results rows /\
  Forall (fun l => travel_time_text l <> "Calculating..." /\
                   travel_distance_text l <> "Calculating...") results.
Proof.
  induction rows as [|r0 rest IH]; intros made results made' H.
  - cbn in H. injection H as <- <-. rewrite app_nil_r. repeat constructor.
  - rewrite enrich_cons in H.
    destruct (process_row_cases origin r0 made)
      as [H0 | (l0 & H0 & Hmir & Ht & Hd)]; rewrite H0 in H; [discriminate|].
    destruct (enrich origin rest (made ++ [route_request origin r0])%list)
      as [[e|ls] made''] eqn:Hrest; [discriminate|].
    injection H as <- <-.
    destruct (IH _ _ _ Hrest) as (-> & Hm & Hp).
    cbn [map]. rewrite <- app_assoc. split; [reflexivity|].
    split; constructor; auto.
Qed.

(** The calls of the loop are those of the first [k] rows, one each and
    in order: all the rows when the loop returns; when it raises, it
    raises the AttributeError of line 238 at row [k], the last one it made
    a call for. *)
Lemma enrich_calls origin rows : forall made,
  exists k,
    (k <= List.length rows)%nat /\
    snd (enrich origin rows made) =
      (made ++ map (route_request origin) (firstn k rows))%list /\
    match fst (enrich origin rows made) with
    | Return results => k = List.length rows
    | Raise e => e = mapbox_attribute_error /\ (1 <= k)%nat
    end.
Proof.
  induction rows as [|r0 rest IH]; intros made.
  - exists 0%nat. cbn. rewrite app_nil_r. auto.
  - rewrite enrich_cons.
    destruct (process_row_cases origin r0 made) as [H0 | (l0 & H0 & _)]; rewrite H0.
    + exists 1%nat. cbn. split; [lia|]. split; [reflexivity|]. split; [reflexivity|lia].
    + destruct (IH (made ++ [route_request origin r0])%list) as (k & Hk & Hcalls & Hres).
      exists (S k). cbn [List.length firstn map]. split; [lia|].
      destruct (enrich origin rest (made ++ [route_request origin r0])%list)
        as [[e|ls] made''] eqn:Hrest; cbn [fst snd] in *;
        rewrite Hcalls, <- app_assoc; (split; [reflexivity|]).
      * destruct Hres. split; [assumption|lia].
      * lia.
Qed.

(** A fault in the lookup of row [i] makes the loop raise, at that row or
    at one before it. *)
Lemma enrich_fault origin rows : forall made i r_i e,
  nth_error rows i = Some r_i ->
  fails_with (directions (List.length made + i) (route_request origin r_i)) e ->
  exists k,
    (1 <= k <= S i)%nat /\
    enrich origin rows made =
    (Raise mapbox_attribute_error,
     (made ++ map (route_request origin) (firstn k rows))%list).
Proof.
  induction rows as [|r0 rest IH]; intros made i r_i e Hi Hfail.
  - destruct i; discriminate.
  - rewrite enrich_cons.
    destruct (process_row_cases origin r0 made) as [H0 | (l0 & H0 & _)].
    + rewrite H0. exists 1%nat. split; [lia|reflexivity].
    + destruct i as [|i]; cbn [nth_error] in Hi.
      * injection Hi as ->. rewrite Nat.add_0_r in Hfail.
        rewrite (process_row_fault origin r_i made e Hfail) in H0. discriminate.
      * rewrite H0.
        destruct (IH (made ++ [route_request origin r0])%list i r_i e Hi)
          as (k & Hk & ->).
        { rewrite List.length_app. cbn [List.length].
          now replace (List.length made + 1 + i)%nat with (List.length made + S i)%nat by lia. }
        exists (S k). split; [lia|]. cbn [firstn map]. now rewrite <- app_assoc.
Qed.

(** When every row is answered with a route, the loop returns. *)
Lemma enrich_routes origin rows : forall made,
  (forall j r, nth_error rows j = Some r ->
     exists t d, answers_route (directions (List.length made + j)
                                  (route_request origin r)) t d) ->
  exists results,
    enrich origin rows made =
    (Return results, (made ++ map (route_request origin) rows)%list).
Proof.
  induction rows as [|r0 rest IH]; intros made Hall.
  - exists []. cbn. now rewrite app_nil_r.
  - rewrite enrich_cons.
    destruct (Hall 0%nat r0 eq_refl) as (t & d & Hroute).
    rewrite Nat.add_0_r in Hroute.
    destruct (process_row_route origin r0 made t d Hroute) as (g & ->).
    destruct (IH (made ++ [route_request origin r0])%list) as (ls & ->).
    { intros j r Hj. rewrite List.length_app. cbn [List.length].
      replace (List.length made + 1 + j)%nat with (List.length made + S j)%nat by lia.
      now apply Hall. }
    eexists. cbn [map]. now rewrite <- app_assoc.
Qed.

(** ** The page of a request *)

Lemma index_get db req :
  method req = GET ->
  index db req [] =
  (Return {| locations := []; search_disease := None;
             map_center := fst (initial_center db);
             map_zoom := snd (initial_center db);
             user_lat := None; user_lon := None |}, []).
Proof.
  intros Hm. unfold index. rewrite Hm. now destruct (initial_center db).
Qed.

Lemma index_without_location db req a b :
  method req = POST ->
  submitted_location req = (a, b) ->
  a = None \/ b = None ->
  index db req [] =
  (Return {| locations := map basic_info (matches db req);
             search_disease := Some (submitted_term req);
             map_center :=
               if is_empty (matches db req) then fst (initial_center db)
               else [float_mean (map LON (matches db req));
                     float_mean (map LAT (matches db req))];
             map_zoom :=
               if is_empty (matches db req) then snd (initial_center db) else 13;
             user_lat := a; user_lon := b |}, []).
Proof.
  intros Hm Hloc Hnone. unfold index. rewrite Hm.
  change (strip _) with (submitted_term req).
  fold (submitted_location req). fold (matches db req).
  rewrite Hloc. destruct (initial_center db) as [c0 z0].
  generalize (matches db req) as rows. intros rows.
  destruct rows as [|r0 rest];
    destruct a, b; destruct Hnone; try discriminate;
    cbn; unfold bind, ret; cbn; rewrite ?map_map; reflexivity.
Qed.

(** With a user location the view returns the page of the loop's dicts,
    or raises what the loop raised. *)
Lemma index_with_location db req la lo :
  method req = POST ->
  submitted_location req = (Some la, Some lo) ->
  index db req [] =
  match enrich (lo, la) (matches db req) [] with
  | (Raise e, made) => (Raise e, made)
  | (Return found, made) =>
      (Return {| locations := found;
                 search_disease := Some (submitted_term req);
                 map_center := [lo; la]; map_zoom := 13;
                 user_lat := Some la; user_lon := Some lo |}, made)
  end.
Proof.
  intros Hm Hloc. unfold index. rewrite Hm.
  change (strip _) with (submitted_term req).
  fold (submitted_location req). fold (matches db req).
  rewrite Hloc. destruct (initial_center db) as [c0 z0].
  destruct (matches db req) as [|r0 rest] eqn:Hrows.
  - reflexivity.
  - cbn [is_empty negb]. unfold bind at 1.
    destruct (enrich (lo, la) (r0 :: rest) []) as [[e|found] made]; [reflexivity|].
    rewrite andb_false_r. reflexivity.
Qed.

(** The page of a request with a user location, when there is one. *)
Lemma index_located_page db req la lo v :
  method req = POST ->
  submitted_location req = (Some la, Some lo) ->
  rendered db req = Some v ->
  enrich (lo, la) (matches db req) [] =
    (Return (locations v), map (route_request (lo, la)) (matches db req)) /\
  calls_made db req = map (route_request (lo, la)) (matches db req) /\
  v = {| locations := locations v;
         search_disease := Some (submitted_term req);
         map_center := [lo; la]; map_zoom := 13;
         user_lat := Some la; user_lon := Some lo |}.
Proof.
  intros Hm Hloc. unfold rendered, calls_made.
  rewrite (index_with_location db req la lo Hm Hloc).
  destruct (enrich (lo, la) (matches db req) []) as [[e|found] made] eqn:Hf;
    cbn [fst snd]; [discriminate|].
  intros [= <-]. destruct (enrich_returned _ _ _ _ _ Hf) as (-> & _).
  cbn. auto.
Qed.

(** When the loop raises, the request gets no page. *)
Lemma index_aborts db req la lo e :
  method req = POST ->
  submitted_location req = (Some la, Some lo) ->
  fst (enrich (lo, la) (matches db req) []) = Raise e ->
  rendered db req = None.
Proof.
  intros Hm Hloc He. unfold rendered.
  rewrite (index_with_location db req la lo Hm Hloc).
  destruct (enrich (lo, la) (matches db req) []) as [[e'|found] made];
    [reflexivity|discriminate].
Qed.

(** When the loop returns, the request gets its page. *)
Lemma index_located_returns db req la lo found made :
  method req = POST ->
  submitted_location req = (Some la, Some lo) ->
  enrich (lo, la) (matches db req) [] = (Return found, made) ->
  exists v, rendered db req = Some v /\ locations v = found /\
            map_center v = [lo; la] /\ map_zoom v = 13.
Proof.
  intros Hm Hloc Hf. unfold rendered.
  rewrite (index_with_location db req la lo Hm Hloc), Hf. cbn.
  eexists. split; [reflexivity|]. cbn. auto.
Qed.


(** ** The query filter *)

(** C4. A POST whose search term is empty or only white space selects no
    row: the filter gives the empty list and the page has no location. No
    condition on the table is needed, so this holds for every non-empty
    one. *)
Theorem C4_blank_term_selects_nothing (db : store) (req : request) :
  method req = POST ->
  all_space (disease_name_field req) = true ->
  search db (disease_name_field req) = [] /\
  exists v, rendered db req = Some v /\ locations v = [].
Proof.
  intros Hm Hblank.
  assert (Hterm : submitted_term req = "")
    by (unfold submitted_term; now apply strip_all_space).
  assert (Hrows : matches db req = [])
    by (unfold matches; now rewrite Hterm).
  split.
  - unfold search. fold (submitted_term req). now rewrite Hterm.
  - unfold rendered.
    destruct (submitted_location req) as [[la|] [lo|]] eqn:Hloc.
    + rewrite (index_with_location db req la lo Hm Hloc), Hrows. cbn. eauto.
    + rewrite (index_without_location db req _ _ Hm Hloc), Hrows by auto. cbn. eauto.
    + rewrite (index_without_location db req _ _ Hm Hloc), Hrows by auto. cbn. eauto.
    + rewrite (index_without_location db req _ _ Hm Hloc), Hrows by auto. cbn. eauto.
Qed.






(** ** Requests without a user location *)

Lemma initial_center_cases (db : store) :
  (has_data db = true ->
   initial_center db = ([series_mean (map LON (csv_data_df db));
                         series_mean (map LAT (csv_data_df db))], 10)) /\
  (has_data db = false -> initial_center db = (default_center, 12)).
Proof.
  unfold initial_center, has_data.
  destruct (data_load_success db && negb (is_empty (csv_data_df db)));
    split; intros H; congruence.
Qed.

(** What the page of a request without a user location is. *)
Lemma index_no_location db req :
  no_location req ->
  exists found a b,
    index db req [] =
    (Return {| locations := found;
               search_disease :=
                 match method req with GET => None | POST => Some (submitted_term req) end;
               map_center :=
                 if is_empty found then fst (initial_center db)
                 else [float_mean (map lon found); float_mean (map lat found)];
               map_zoom := if is_empty found then snd (initial_center db) else 13;
               user_lat := a; user_lon := b |}, []) /\
    Forall (fun l => travel_time_text l = "Requires Location" /\
                     travel_distance_text l = "Requires Location" /\
                     route_geometry_encoded l = PyNone) found.
Proof.
  intros Hno. destruct (method req) eqn:Hm.
  - exists [], None, None. rewrite index_get by assumption. split; [reflexivity|constructor].
  - destruct Hno as [Hget | (a & b & Hloc & Hnone)]; [congruence|].
    exists (map basic_info (matches db req)), a, b.
    rewrite (index_without_location db req a b Hm Hloc Hnone).
    split.
    + destruct (matches db req); [reflexivity|].
      cbn [is_empty map]. rewrite !map_map. reflexivity.
    + apply Forall_map, Forall_forall. intros r _. repeat split.
Qed.

Lemma basic_info_rows (rows : list row) :
  Forall2 (fun l r => mirrors l r /\
                      travel_time_text l = "Requires Location" /\
                      travel_distance_text l = "Requires Location" /\
                      route_geometry_encoded l = PyNone)
          (map basic_info rows) rows.
Proof.
  induction rows as [|r rest IH]; cbn [map]; constructor; [|exact IH].
  repeat split.
Qed.

(** C2. When the user coordinates are absent or invalid (one of them is
    [None] once the form is read), the request makes no call to the
    directions service and gets its page. On a search the page has one
    location for each selected row, in order, showing that row with the
    text "Requires Location" for time and distance and no route geometry;
    a GET has no location. So every location of the page has the
    placeholder and no geometry. *)
Theorem C2_no_origin_no_calls (db : store) (req : request) (a b : option float) :
  submitted_location req = (a, b) ->
  a = None \/ b = None ->
  calls_made db req = [] /\
  exists v, rendered db req = Some v /\
    (method req = POST ->
     Forall2 (fun l r => mirrors l r /\
                         travel_time_text l = "Requires Location" /\
                         travel_distance_text l = "Requires Location" /\
                         route_geometry_encoded l = PyNone)
             (locations v) (matches db req) /\
     List.length (locations v) = List.length (matches db req)) /\
    (method req = GET -> locations v = []) /\
    (forall l, In l (locations v) ->
       travel_time_text l = "Requires Location" /\
       travel_distance_text l = "Requires Location" /\
       route_geometry_encoded l = PyNone).
Proof.
  intros Hloc Hnone. unfold calls_made, rendered.
  destruct (method req) eqn:Hm.
  - rewrite index_get by exact Hm. cbn. split; [reflexivity|].
    eexists. split; [reflexivity|]. cbn.
    split; [discriminate|]. split; [reflexivity|]. intros l [].
  - rewrite (index_without_location db req a b Hm Hloc Hnone). cbn.
    split; [reflexivity|]. eexists. split; [reflexivity|]. cbn.
    split; [|split; [discriminate|]].
    + intros _. split; [apply basic_info_rows|apply length_map].
    + intros l Hl. apply in_map_iff in Hl as (r & <- & _). repeat split.
Qed.

(** C3. The map center follows a fixed order. With a valid pair of user
    coordinates the center of the page is [[lon, lat]] of the user
    whatever the results are ((12.0, 77.5) gives [[77.5, 12.0]]); the page
    is there when the loop over the selected rows returns, as it does when
    every row is answered with a route. Without a valid pair, the center
    is the mean of the results if there are any (results at (10,20) and
    (12,22) give [[21.0, 11.0]]); else the mean of the whole table if it
    has rows; else the fixed default, with zoom 12. *)
Theorem C3_map_center_priority (db : store) (req : request) :
  (forall la lo v,
      method req = POST -> submitted_location req = (Some la, Some lo) ->
      rendered db req = Some v -> map_center v = [lo; la]) /\
  (forall v,
      method req = POST ->
      submitted_location req = (Some 12.0%float, Some 77.5%float) ->
      rendered db req = Some v -> map_center v = [77.5%float; 12.0%float]) /\
  (forall la lo,
      method req = POST -> submitted_location req = (Some la, Some lo) ->
      (forall j r, nth_error (matches db req) j = Some r ->
         exists t d, answers_route (directions j (route_request (lo, la) r)) t d) ->
      exists v, rendered db req = Some v /\ map_center v = [lo; la]) /\
  (no_location req ->
   exists v, rendered db req = Some v /\
     (locations v <> [] ->
      map_center v = [float_mean (map lon (locations v));
                      float_mean (map lat (locations v))]) /\
     (map lat (locations v) = [10%float; 12%float] ->
      map lon (locations v) = [20%float; 22%float] ->
      map_center v = [21.0%float; 11.0%float]) /\
     (locations v = [] -> has_data db = true ->
      map_center v = [series_mean (map LON (csv_data_df db));
                      series_mean (map LAT (csv_data_df db))]) /\
     (locations v = [] -> has_data db = false ->
      map_center v = default_center /\ map_zoom v = 12)).
Proof.
  assert (Huser : forall la lo v,
      method req = POST -> submitted_location req = (Some la, Some lo) ->
      rendered db req = Some v -> map_center v = [lo; la]).
  { intros la lo v Hm Hloc Hv.
    destruct (index_located_page db req la lo v Hm Hloc Hv) as (_ & _ & ->).
    reflexivity. }
  split; [exact Huser|]. split; [intros v; apply Huser|]. split.
  { intros la lo Hm Hloc Hall.
    destruct (enrich_routes (lo, la) (matches db req) [] Hall) as (found & Hf).
    destruct (index_located_returns db req la lo _ _ Hm Hloc Hf)
      as (v & Hv & _ & Hc & _).
    exists v. auto. }
  intros Hno.
  destruct (index_no_location db req Hno) as (found & a & b & Hi & _).
  unfold rendered. rewrite Hi. cbn. eexists. split; [reflexivity|]. cbn.
  destruct (initial_center_cases db) as [Hdata Hnodata].
  split; [|split; [|split]].
  - destruct found; [congruence|reflexivity].
  - intros Hlat Hlon. destruct found; [discriminate|].
    cbn [is_empty]. rewrite Hlat, Hlon. vm_compute. reflexivity.
  - intros -> Hd. cbn. now rewrite Hdata.
  - intros -> Hd. cbn. now rewrite Hnodata.
Qed.

Lemma read_user_location_invalid (user_lat_str user_lon_str : option string) :
  float_if_given user_lat_str = None \/ float_if_given user_lon_str = None ->
  read_user_location user_lat_str user_lon_str = (None, None).
Proof.
  unfold read_user_location. intros [H | H]; rewrite H.
  - reflexivity.
  - now destruct (float_if_given user_lat_str).
Qed.

(** C9, as the code has it. A POST whose latitude or longitude text does
    not parse as a number is served all the same: both user coordinates
    are [None], no call is made, and the center is the one of a request
    without a location: the mean of the results if there are any, else the
    mean of the table if it has rows, else the default. *)
Theorem C9_unparsed_location_is_no_location (db : store) (req : request) :
  method req = POST ->
  float_if_given (form_get req "user_lat") = None \/
  float_if_given (form_get req "user_lon") = None ->
  calls_made db req = [] /\
  exists v, rendered db req = Some v /\
    user_lat v = None /\ user_lon v = None /\
    (locations v <> [] ->
     map_center v = [float_mean (map lon (locations v));
                     float_mean (map lat (locations v))]) /\
    (locations v = [] -> has_data db = true ->
     map_center v = [series_mean (map LON (csv_data_df db));
                     series_mean (map LAT (csv_data_df db))]) /\
    (locations v = [] -> has_data db = false -> map_center v = default_center).
Proof.
  intros Hm Hbad.
  assert (Hloc : submitted_location req = (None, None))
    by now apply read_user_location_invalid.
  unfold calls_made, rendered.
  rewrite (index_without_location db req _ _ Hm Hloc) by auto. cbn.
  split; [reflexivity|]. eexists. split; [reflexivity|]. cbn.
  destruct (initial_center_cases db) as [Hdata Hnodata].
  split; [reflexivity|]. split; [reflexivity|]. split; [|split].
  - destruct (matches db req); [cbn; congruence|].
    cbn [is_empty map]. now rewrite !map_map.
  - intros Hempty Hd. destruct (matches db req); [|discriminate].
    cbn. now rewrite Hdata.
  - intros Hempty Hd. destruct (matches db req); [|discriminate].
    cbn. now rewrite Hnodata.
Qed.

(** ** Requests with a user location *)

(** C1, what the code does. With a user location, a fault in the lookup
    of one selected row (the call raises, or the status check or the
    decoding does) is not caught: the [except] clause of line 238 raises
    AttributeError, the loop raises it at that row or at an earlier one
    that faulted, no row after it is looked up, and the request ends
    without a page: the results of the rows before it are lost with
    it. *)
Theorem C1_fault_aborts_the_request
  (db : store) (req : request) (la lo : float) (i : nat) (r_i : row) (e : exn) :
  method req = POST ->
  submitted_location req = (Some la, Some lo) ->
  nth_error (matches db req) i = Some r_i ->
  fails_with (directions i (route_request (lo, la) r_i)) e ->
  rendered db req = None /\
  fst (enrich (lo, la) (matches db req) []) = Raise mapbox_attribute_error /\
  exists k,
    (1 <= k <= S i)%nat /\
    calls_made db req = map (route_request (lo, la)) (firstn k (matches db req)).
Proof.
  intros Hm Hloc Hi Hfail.
  destruct (enrich_fault (lo, la) (matches db req) [] i r_i e Hi Hfail)
    as (k & Hk & Hf).
  split; [|split].
  - apply (index_aborts db req la lo mapbox_attribute_error Hm Hloc). now rewrite Hf.
  - now rewrite Hf.
  - exists k. split; [exact Hk|]. unfold calls_made.
    rewrite (index_with_location db req la lo Hm Hloc), Hf. reflexivity.
Qed.

(** C6, what the code does. For a row looked up with a user location:
    when the answer has a good status and decodes to a body without a
    route, the row is produced with a placeholder: "Route not found" for a
    body that is false (null, an empty object) and for the code "Ok",
    "API Error: " and the code for any other code, and "API Error: Unknown
    API Error" when there is no code. When the answer has a status that
    [raise_for_status] raises on, as the answers with a non-success code
    have apart from "NoRoute" and "NoSegment", the body is not read: the
    [except] clause of line 238 raises AttributeError, no row is
    produced, and the request ends without a page. *)
Theorem C6_error_status_aborts_the_request :
  (forall origin r made resp e,
      directions (List.length made) (route_request origin r) = CallReturns resp ->
      raise_for_status resp = Some e ->
      process_row origin r made =
      (Raise mapbox_attribute_error, (made ++ [route_request origin r])%list)) /\
  (forall db req la lo i r_i resp e,
      method req = POST ->
      submitted_location req = (Some la, Some lo) ->
      nth_error (matches db req) i = Some r_i ->
      directions i (route_request (lo, la) r_i) = CallReturns resp ->
      raise_for_status resp = Some e ->
      rendered db req = None) /\
  (forall origin r made body,
      answers_body (directions (List.length made) (route_request origin r)) body ->
      (py_truthy body = false ->
       process_row origin r made =
       (Return (with_result r "Route not found" "Route not found" PyNone),
        (made ++ [route_request origin r])%list)) /\
      (forall items,
          body = PyDict items -> items <> [] -> no_routes items = true ->
          exists li,
            process_row origin r made =
              (Return li, (made ++ [route_request origin r])%list) /\
            (forall code, lookup "code" items = Some code -> py_ne_str code "Ok" = true ->
                          travel_time_text li = "API Error: " ++ py_str code /\
                          travel_distance_text li = "API Error: " ++ py_str code) /\
            (lookup "code" items = None ->
             travel_time_text li = "API Error: Unknown API Error" /\
             travel_distance_text li = "API Error: Unknown API Error") /\
            (lookup "code" items = Some (PyStr "Ok") ->
             travel_time_text li = "Route not found" /\
             travel_distance_text li = "Route not found"))).
Proof.
  split; [|split].
  - intros origin r made resp e Hd Hs.
    apply (process_row_fault origin r made e). right. left. eauto.
  - intros db req la lo i r_i resp e Hm Hloc Hi Hd Hs.
    destruct (enrich_fault (lo, la) (matches db req) [] i r_i e Hi) as (k & _ & Hf).
    { right. left. eauto. }
    apply (index_aborts db req la lo mapbox_attribute_error Hm Hloc). now rewrite Hf.
  - intros origin r made body Hbody. split.
    + intros Hfalse. now apply process_row_falsy_body with (body := body).
    + intros items -> Hne Hno.
      rewrite (process_row_no_route origin r made items Hbody Hne Hno).
      eexists. split; [reflexivity|].
      cbn [with_result travel_time_text travel_distance_text].
      split; [|split].
      * intros code -> ->. split; reflexivity.
      * intros ->. split; reflexivity.
      * intros ->. split; reflexivity.
Qed.

(** C10. The text "Calculating..." a row starts with never reaches the
    page: every dict a pass of the loop returns has both texts replaced,
    and a pass returns one when the answer has a route or has a good
    status and no route (a pass whose lookup raises returns nothing, and
    no page is made); so every location of every page has texts other
    than "Calculating...". *)
Theorem C10_pending_text_never_returned (db : store) (req : request) :
  (forall origin r made li made',
      process_row origin r made = (Return li, made') ->
      travel_time_text li <> "Calculating..." /\
      travel_distance_text li <> "Calculating...") /\
  (forall origin r made,
      (exists t d, answers_route (directions (List.length made)
                                    (route_request origin r)) t d) \/
      (exists body,
          answers_body (directions (List.length made) (route_request origin r)) body /\
          (py_truthy body = false \/
           exists items, body = PyDict items /\ items <> [] /\
                         no_routes items = true)) ->
      exists li,
        process_row origin r made =
        (Return li, (made ++ [route_request origin r])%list)) /\
  (forall v, rendered db req = Some v ->
     forall l, In l (locations v) ->
       travel_time_text l <> "Calculating..." /\
       travel_distance_text l <> "Calculating...").
Proof.
  split; [|split].
  - intros origin r made li made' H.
    destruct (process_row_cases origin r made) as [H0 | (li' & H0 & _ & Ht & Hd)];
      rewrite H0 in H; [discriminate|].
    injection H as <- _. auto.
  - intros origin r made [(t & d & Hroute) | (body & Hbody & [Hfalse | Hobj])].
    + destruct (process_row_route origin r made t d Hroute) as (g & ->). eauto.
    + rewrite (process_row_falsy_body origin r made body Hbody Hfalse). eauto.
    + destruct Hobj as (items & -> & Hne & Hno).
      rewrite (process_row_no_route origin r made items Hbody Hne Hno). eauto.
  - intros v. unfold rendered.
    destruct (method req) eqn:Hm;
      [|destruct (submitted_location req) as [[la|] [lo|]] eqn:Hloc].
    2:{ rewrite (index_with_location db req la lo Hm Hloc).
        destruct (enrich (lo, la) (matches db req) []) as [[e|found] made] eqn:Hf;
          cbn [fst]; [discriminate|].
        intros [= <-]. cbn [locations].
        apply Forall_forall. eapply enrich_returned, Hf. }
    all: destruct (index_no_location db req) as (found & a & b & -> & Hall);
      [first [now left | right; eauto] |].
    all: cbn; intros [= <-]; cbn; intros l Hl;
      rewrite Forall_forall in Hall; destruct (Hall l Hl) as (-> & -> & _);
      split; discriminate.
Qed.

(** ** Formatting *)

Lemma hours_positive_iff (z : Z) : 0 <= z -> (z / 60 / 60 >? 0) = (3600 <=? z).
Proof.
  intros Hz. rewrite Z.div_div by lia. change (60 * 60) with 3600.
  destruct (3600 <=? z) eqn:Hle.
  - apply Z.leb_le in Hle. apply Z.gtb_lt.
    assert (1 <= z / 3600) by (apply Z.div_le_lower_bound; lia). lia.
  - apply Z.leb_gt in Hle. rewrite Z.div_small by lia. reflexivity.
Qed.

(** The text of a duration, in terms of its whole minutes. *)
Lemma time_text_of_minutes (v : pyval) (m : Z) :
  minutes_of v = Return m ->
  time_text v =
  Return (if 60 <=? m
          then str_of_int (m / 60) ++ " hr " ++ str_of_int (m mod 60) ++ " min (driving)"
          else str_of_int m ++ " min (driving)").
Proof.
  intros Hm. unfold time_text.
  destruct (py_is_none v) eqn:Hnone.
  { destruct v; discriminate. }
  cbn [negb]. rewrite Hm. unfold format_minutes.
  replace (m / 60 >? 0) with (60 <=? m); [reflexivity|].
  destruct (60 <=? m) eqn:Hle; symmetry.
  - apply Z.leb_le in Hle. apply Z.gtb_lt.
    assert (1 <= m / 60) by (apply Z.div_le_lower_bound; lia). lia.
  - apply Z.leb_gt in Hle.
    destruct (m / 60 >? 0) eqn:Hgt; [|reflexivity].
    apply Z.gtb_lt in Hgt.
    assert (m / 60 <= 59 / 60) by (apply Z.div_le_mono; lia).
    change (59 / 60) with 0 in *. lia.
Qed.

Lemma same_text_eq (a b : outcome string) : same_text a b = true -> a = b.
Proof.
  destruct a as [|s], b as [|t]; try discriminate.
  cbn. intros H. apply String.eqb_eq in H. now subst.
Qed.

Lemma all_from_holds (f : Z -> bool) (n : nat) : forall k,
  all_from f k n = true ->
  forall z, k <= z < k + Z.of_nat n -> f z = true.
Proof.
  induction n as [|n IH]; intros k H z Hz; [lia|].
  cbn [all_from] in H. apply andb_true_iff in H as [Hk Hrest].
  destruct (Z.eq_dec z k) as [->|Hne]; [exact Hk|].
  apply (IH (k + 1) Hrest). lia.
Qed.

Lemma whole_seconds_checked :
  all_from float_agrees_with_int 0 (Z.to_nat 7201) = true.
Proof. vm_compute. reflexivity. Qed.

(** C7. A duration of [z] whole seconds, [z] not negative, is shown as
    "H hr M min (driving)" when it is an hour or more and as
    "M min (driving)" otherwise, the minutes being the seconds divided by
    60 and truncated. For any duration the service returns, integer or
    float, with [m] its whole minutes as the code computes them, the text
    is "H hr M min (driving)" with [H = m / 60] and [M = m mod 60] when
    [m] is 60 or more, else "m min (driving)"; for every whole number of
    seconds up to two hours the float gives the text of the integer. A row
    whose lookup answers a route carries that text. 125 seconds give
    "2 min (driving)" and
    3900 seconds give "1 hr 5 min (driving)", as an integer and as a
    float. *)
Theorem C7_duration_text :
  (forall z, 0 <= z ->
     time_text (PyInt z) =
     Return (if 3600 <=? z
             then str_of_int (z / 3600) ++ " hr " ++ str_of_int ((z / 60) mod 60)
                  ++ " min (driving)"
             else str_of_int (z / 60) ++ " min (driving)")) /\
  (forall v m, minutes_of v = Return m -> 0 <= m ->
     time_text v =
     Return (if 60 <=? m
             then str_of_int (m / 60) ++ " hr " ++ str_of_int (m mod 60)
                  ++ " min (driving)"
             else str_of_int m ++ " min (driving)")) /\
  (forall z, 0 <= z <= 7200 ->
     time_text (PyFloat (Z2float z)) = time_text (PyInt z)) /\
  (forall origin r made t d,
     answers_route (directions (List.length made) (route_request origin r)) t d ->
     exists li, fst (process_row origin r made) = Return li /\
                travel_time_text li = t) /\
  time_text (PyInt 125) = Return "2 min (driving)" /\
  time_text (PyFloat 125.0%float) = Return "2 min (driving)" /\
  time_text (PyInt 3900) = Return "1 hr 5 min (driving)" /\
  time_text (PyFloat 3900.0%float) = Return "1 hr 5 min (driving)" /\
  time_text (PyFloat 3599.9%float) = Return "59 min (driving)".
Proof.
  split; [|split; [|split; [|split]]].
  - intros z Hz. unfold time_text, minutes_of, format_minutes. cbn [py_is_none negb].
    rewrite hours_positive_iff by exact Hz.
    rewrite Z.div_div by lia. reflexivity.
  - intros v m Hm _. now apply time_text_of_minutes.
  - intros z Hz. apply same_text_eq.
    apply (all_from_holds float_agrees_with_int _ 0 whole_seconds_checked). lia.
  - intros origin r made t d Hroute.
    destruct (process_row_route origin r made t d Hroute) as (g & ->).
    eexists. split; reflexivity.
  - repeat split; vm_compute; reflexivity.
Qed.

Lemma uint_digits (d : Decimal.uint) : all_digits (NilEmpty.string_of_uint d) = true.
Proof. induction d; cbn; auto. Qed.

Lemma str_of_int_digits (q : Z) :
  0 <= q -> str_of_int q <> "" /\ all_digits (str_of_int q) = true.
Proof.
  intros Hq. unfold str_of_int. destruct q as [|p|p]; [| |lia].
  - split; [discriminate|reflexivity].
  - cbn [Z.to_int NilZero.string_of_int]. unfold NilZero.string_of_uint.
    pose proof (DecimalPos.Unsigned.to_uint_nonnil p) as Hnil.
    destruct (Pos.to_uint p) eqn:Hd; try congruence;
      (split; [discriminate | rewrite <- Hd; apply uint_digits ]).
Qed.

Lemma digit_char_digit (k : Z) : 0 <= k < 10 -> is_digit (digit_char k) = true.
Proof.
  intros Hk.
  assert (H : k = 0 \/ k = 1 \/ k = 2 \/ k = 3 \/ k = 4 \/
              k = 5 \/ k = 6 \/ k = 7 \/ k = 8 \/ k = 9) by lia.
  repeat (destruct H as [-> | H]; [reflexivity|]). now subst.
Qed.

Lemma round_half_even_nonneg (n d : Z) : 0 <= n -> 0 < d -> 0 <= round_half_even n d.
Proof.
  intros Hn Hd. unfold round_half_even.
  assert (0 <= n / d) by (apply Z.div_pos; lia).
  destruct (2 * (n mod d) ?= d); [destruct (Z.even (n / d))| |]; lia.
Qed.

Lemma hundredths_two_places (n : Z) (sign : string) :
  0 <= n -> sign = "" \/ sign = "-" -> two_decimal_places (sign ++ hundredths n).
Proof.
  intros Hn Hsign. unfold hundredths.
  destruct (str_of_int_digits (n / 100)) as [Hne Hall];
    [apply Z.div_pos; lia|].
  exists sign, (str_of_int (n / 100)),
         (digit_char ((n / 10) mod 10)), (digit_char (n mod 10)).
  split; [reflexivity|]. split; [exact Hsign|]. split; [exact Hne|].
  split; [exact Hall|].
  split; apply digit_char_digit; apply Z.mod_pos_bound; lia.
Qed.

Lemma format_2f_two_places (x : float) :
  float_finite x = true -> two_decimal_places (format_2f x).
Proof.
  unfold float_finite, format_2f. destruct (Prim2SF x) as [s|s| |s m e]; try discriminate.
  - intros _. exists (if s then "-" else ""), "0", "0"%char, "0"%char.
    repeat split; destruct s; auto; discriminate.
  - intros _. apply hundredths_two_places.
    + destruct (0 <=? e) eqn:He.
      * apply Z.leb_le in He. apply Z.mul_nonneg_nonneg; [lia|].
        apply Z.pow_nonneg. lia.
      * apply Z.leb_gt in He. apply round_half_even_nonneg; [lia|].
        apply Z.pow_pos_nonneg; lia.
    + destruct s; auto.
Qed.

(** C8. A distance for which [distance_meters / 1000] is a number [km] is
    shown as [km] with exactly two decimal places (a sign if any, digits,
    a point, two digits) followed by " km (driving)"; [km] is the float
    quotient for a float and the rounded integer quotient for an integer.
    A row whose lookup answers a route carries that text. 4200 meters give "4.20 km (driving)", as an integer and as a float. *)
Theorem C8_distance_text :
  (forall v km, km_of v = Return km -> float_finite km = true ->
     distance_text v = Return (format_2f km ++ " km (driving)") /\
     two_decimal_places (format_2f km)) /\
  (forall x, km_of (PyFloat x) = Return (PrimFloat.div x 1000%float)) /\
  (forall origin r made t d,
     answers_route (directions (List.length made) (route_request origin r)) t d ->
     exists li, fst (process_row origin r made) = Return li /\
                travel_distance_text li = d) /\
  distance_text (PyInt 4200) = Return "4.20 km (driving)" /\
  distance_text (PyFloat 4200.0%float) = Return "4.20 km (driving)" /\
  distance_text (PyFloat 1234.5%float) = Return "1.23 km (driving)".
Proof.
  split; [|split; [|split]].
  - intros v km Hkm Hfin. split; [|now apply format_2f_two_places].
    unfold distance_text. rewrite Hkm.
    destruct v; try reflexivity. discriminate.
  - reflexivity.
  - intros origin r made t d Hroute.
    destruct (process_row_route origin r made t d Hroute) as (g & ->).
    eexists. split; reflexivity.
  - repeat split; vm_compute; reflexivity.
Qed.


(** * Further facts *)

(** ** Start-up *)

Lemma has_column_In (f : frame) (col : string) :
  has_column f col = true <-> In col (columns f).
Proof.
  unfold has_column. rewrite existsb_exists. split.
  - intros (x & Hx & Heq). apply String.eqb_eq in Heq. now subst.
  - intros H. exists col. split; [exact H|apply String.eqb_refl].
Qed.

Lemma load_frame_columns (f : frame) :
  (exists rows, load_frame f = Some rows) <->
  In "LAT" (columns f) /\ In "LON" (columns f) /\ In "Disease" (columns f).
Proof.
  rewrite <- !has_column_In. unfold load_frame, missing_required_columns,
    required_columns. cbn [filter].
  destruct (has_column f "LAT"), (has_column f "LON"), (has_column f "Disease");
    cbn [negb]; split;
    try (intros [rows H]; discriminate);
    try (intros (H1 & H2 & H3); discriminate);
    eauto.
Qed.

Lemma token_usable_iff (token : option string) :
  token_usable token = true <->
  exists t, token = Some t /\ t <> "" /\ t <> "YOUR_MAPBOX_ACCESS_TOKEN".
Proof.
  unfold token_usable. destruct token as [t|].
  - rewrite andb_true_iff, negb_true_iff, String.eqb_neq. split.
    + intros [Ht Hp]. exists t. repeat split; [|exact Hp].
      intros ->. discriminate.
    + intros (t' & [= <-] & Hne & Hp). split; [|exact Hp].
      destruct t; [congruence|reflexivity].
  - split; [discriminate|]. intros (t & H & _). discriminate.
Qed.

(** X1. The process gets to serve exactly when the token is set, not
    empty and not the placeholder, the client was built, the file was read
    and the frame has the three required columns; otherwise it exits, a
    missing required column included, whatever the rows are. *)
Theorem X1_startup_serves_iff (env : environment) :
  (exists db, startup env = Some db) <->
  (exists t, MAPBOX_TOKEN env = Some t /\ t <> "" /\
             t <> "YOUR_MAPBOX_ACCESS_TOKEN") /\
  (exists u, client_init env = Return u) /\
  (exists f, read_csv env = Return f /\
             In "LAT" (columns f) /\ In "LON" (columns f) /\
             In "Disease" (columns f)).
Proof.
  rewrite <- token_usable_iff. unfold startup.
  destruct (token_usable (MAPBOX_TOKEN env)).
  2:{ split; [intros [db H]; discriminate|intros (H & _); discriminate]. }
  destruct (client_init env) as [e|u].
  { split; [intros [db H]; discriminate|intros (_ & [u H] & _); discriminate]. }
  destruct (read_csv env) as [e|f].
  { split; [intros [db H]; discriminate|intros (_ & _ & f & H & _); discriminate]. }
  pose proof (load_frame_columns f) as Hcols.
  destruct (load_frame f) as [rows|].
  - split; [|eauto]. intros _. split; [reflexivity|]. split; [eauto|].
    exists f. split; [reflexivity|]. apply Hcols. eauto.
  - split; [intros [db H]; discriminate|].
    intros (_ & _ & f' & [= <-] & Hin). apply Hcols in Hin as [rows H]. discriminate.
Qed.

Lemma startup_loaded (env : environment) (db : store) :
  startup env = Some db ->
  exists f, read_csv env = Return f /\
            db = {| data_load_success := true;
                    csv_data_df := map (clean_row f)
                                       (filter coordinates_valid (records f)) |}.
Proof.
  unfold startup, load_frame.
  destruct (token_usable (MAPBOX_TOKEN env)); [|discriminate].
  destruct (client_init env); [discriminate|].
  destruct (read_csv env) as [e|f]; [discriminate|].
  destruct (missing_required_columns f); [|discriminate].
  intros [= <-]. eauto.
Qed.

Lemma to_numeric_unusable (c : cell) :
  c = CNaN \/ (exists s, c = CText s /\ to_numeric_text s = None) ->
  is_nan (to_numeric c) = true.
Proof.
  intros [-> | (s & -> & Hs)]; cbn; [|rewrite Hs]; reflexivity.
Qed.

(** X2. The table the view is served with holds the rows of the file
    whose two coordinates are numbers, in the order of the file; a row
    with a missing coordinate, or one whose text is not a number, is
    dropped; no coordinate of the table is NaN; the rows dropped and the
    rows kept add up to the rows read; and the load flag is set. *)
Theorem X2_loaded_rows_have_coordinates (env : environment) (db : store) :
  startup env = Some db ->
  data_load_success db = true /\
  exists f kept,
    read_csv env = Return f /\
    subsequence kept (records f) /\
    csv_data_df db = map (clean_row f) kept /\
    (forall raw, In raw kept <->
                 In raw (records f) /\ coordinates_valid raw = true) /\
    (forall raw,
        raw "LAT" = CNaN \/ raw "LON" = CNaN \/
        (exists s, raw "LAT" = CText s /\ to_numeric_text s = None) \/
        (exists s, raw "LON" = CText s /\ to_numeric_text s = None) ->
        ~ In raw kept) /\
    Forall (fun r => is_nan (LAT r) = false /\ is_nan (LON r) = false)
           (csv_data_df db) /\
    List.length (records f) =
    (List.length (csv_data_df db) +
     List.length (filter (fun raw => negb (coordinates_valid raw)) (records f)))%nat.
Proof.
  intros H. destruct (startup_loaded env db H) as (f & Hf & ->).
  split; [reflexivity|].
  exists f, (filter coordinates_valid (records f)).
  split; [exact Hf|]. split; [apply filter_subsequence|]. split; [reflexivity|].
  split; [intros raw; apply filter_In|]. split; [|split].
  - intros raw Hbad Hin. apply filter_In in Hin as [_ Hv].
    unfold coordinates_valid in Hv. apply andb_true_iff in Hv as [Hla Hlo].
    apply negb_true_iff in Hla, Hlo.
    destruct Hbad as [Hc | [Hc | [Hc | Hc]]].
    + rewrite to_numeric_unusable in Hla by (left; exact Hc). discriminate.
    + rewrite to_numeric_unusable in Hlo by (left; exact Hc). discriminate.
    + rewrite to_numeric_unusable in Hla by (right; exact Hc). discriminate.
    + rewrite to_numeric_unusable in Hlo by (right; exact Hc). discriminate.
  - cbn [csv_data_df]. apply Forall_map, Forall_forall. intros raw Hin.
    apply filter_In in Hin as [_ Hv]. unfold coordinates_valid in Hv.
    apply andb_true_iff in Hv as [Hla Hlo]. apply negb_true_iff in Hla, Hlo.
    split; assumption.
  - cbn [csv_data_df]. rewrite length_map.
    symmetry. apply filter_length.
Qed.

(** ** More on one pass of the loop *)

Lemma first_route_inv (body : pyval) (route : list (string * pyval)) :
  first_route body = Some route ->
  exists items rest,
    body = PyDict items /\
    lookup "routes" items = Some (PyList (PyDict route :: rest)).
Proof.
  unfold first_route. destruct body as [| | | | | |items]; try discriminate.
  destruct (lookup "routes" items)
    as [[| | | | |[|[| | | | | |route'] rest]|]|] eqn:Hl; try discriminate.
  intros [= ->]. exists items, rest. split; [reflexivity|exact Hl].
Qed.

(** One pass, given the first route of the answer: the texts are those of
    its duration and distance; when one of the two cannot be formatted the
    pass raises the AttributeError of line 238. *)
Lemma process_row_first_route origin r made route :
  answers_first_route (directions (List.length made) (route_request origin r)) route ->
  process_row origin r made =
  (match time_text (field route "duration") with
   | Raise _ => Raise mapbox_attribute_error
   | Return t =>
       match distance_text (field route "distance") with
       | Raise _ => Raise mapbox_attribute_error
       | Return d => Return (with_result r t d (field route "geometry"))
       end
   end,
   (made ++ [route_request origin r])%list).
Proof.
  intros (body & (resp & H & Hs & Hj) & Hroute).
  destruct (first_route_inv body route Hroute) as (items & rest & -> & Hl).
  run_row origin r. rewrite H, Hs, Hj, (lookup_truthy _ _ _ Hl).
  unfold py_get at 1. rewrite Hl. cbn [py_truthy].
  unfold py_getitem. rewrite Hl. cbn [py_getitem0 py_get].
  fold (field route "duration") (field route "distance") (field route "geometry").
  destruct (time_text (field route "duration")) as [e|t]; [reflexivity|].
  destruct (distance_text (field route "distance")) as [e|d]; reflexivity.
Qed.

(** X3. When the duration or the distance of a route cannot be formatted
    (a text or a list where a number is expected, a NaN duration), the
    failure is not reported on the row: the [except] clause of line 238
    raises AttributeError and the pass ends with it, after its one call
    and with no dict, also when the time text was already computed. *)
Theorem X3_format_failure_ends_the_pass
  (origin : float * float) (r : row) (made : list api_call)
  (route : list (string * pyval)) (e : exn) :
  answers_first_route (directions (List.length made) (route_request origin r)) route ->
  time_text (field route "duration") = Raise e \/
  ((exists t, time_text (field route "duration") = Return t) /\
   distance_text (field route "distance") = Raise e) ->
  process_row origin r made =
  (Raise mapbox_attribute_error, (made ++ [route_request origin r])%list).
Proof.
  intros Hroute Hfail.
  rewrite (process_row_first_route origin r made route Hroute).
  destruct Hfail as [Ht | [[t Ht] Hd]].
  - now rewrite Ht.
  - now rewrite Ht, Hd.
Qed.

(** X4. A field the route lacks (or gives as null) costs only its own
    text: without a duration the time text is "Time N/A" and the distance
    text and the geometry are those of the route; without a distance the
    distance text is "Distance N/A"; an empty route object gives both and
    no geometry. *)
Theorem X4_missing_field_only_its_text
  (origin : float * float) (r : row) (made : list api_call)
  (route : list (string * pyval)) :
  answers_first_route (directions (List.length made) (route_request origin r)) route ->
  (forall d, field route "duration" = PyNone ->
             distance_text (field route "distance") = Return d ->
             fst (process_row origin r made) =
             Return (with_result r "Time N/A" d (field route "geometry"))) /\
  (forall t, field route "distance" = PyNone ->
             time_text (field route "duration") = Return t ->
             fst (process_row origin r made) =
             Return (with_result r t "Distance N/A" (field route "geometry"))) /\
  (route = [] ->
   fst (process_row origin r made) =
   Return (with_result r "Time N/A" "Distance N/A" PyNone)).
Proof.
  intros Hroute.
  rewrite (process_row_first_route origin r made route Hroute). cbn [fst].
  split; [|split].
  - intros d Hnone Hd. rewrite Hnone, Hd. reflexivity.
  - intros t Hnone Ht. rewrite Hnone, Ht. reflexivity.
  - intros ->. reflexivity.
Qed.

(** X5. A body that is not an object and not false (a JSON array, a
    number, a text, true) has no [get]: the lookup of its routes raises,
    the [except] clause of line 238 raises AttributeError, and the pass
    ends with it, after its one call and with no dict. *)
Theorem X5_body_not_an_object_ends_the_pass
  (origin : float * float) (r : row) (made : list api_call) (body : pyval) :
  answers_body (directions (List.length made) (route_request origin r)) body ->
  py_truthy body = true ->
  (forall items, body <> PyDict items) ->
  py_get body "routes" =
    Raise (AttributeError ("'" ++ type_name body ++ "' object has no attribute 'get'")) /\
  process_row origin r made =
  (Raise mapbox_attribute_error, (made ++ [route_request origin r])%list).
Proof.
  intros (resp & H & Hs & Hj) Ht Hobj.
  split.
  - destruct body; try reflexivity. now destruct (Hobj items).
  - run_row origin r. rewrite H, Hs, Hj, Ht.
    destruct body; try reflexivity. now destruct (Hobj items).
Qed.

(** The geometry a dict is returned with: none, or the one of the first
    route of the answer, and then the texts are those of that route. *)
Lemma process_row_geometry origin r made :
  process_row origin r made =
    (Raise mapbox_attribute_error, (made ++ [route_request origin r])%list) \/
  exists li,
    process_row origin r made = (Return li, (made ++ [route_request origin r])%list) /\
    (route_geometry_encoded li = PyNone \/
     exists route,
       answers_first_route (directions (List.length made) (route_request origin r)) route /\
       time_text (field route "duration") = Return (travel_time_text li) /\
       distance_text (field route "distance") = Return (travel_distance_text li) /\
       route_geometry_encoded li = field route "geometry").
Proof.
  run_row origin r.
  repeat break_match;
    first [ left; reflexivity
          | right; eexists; split; [reflexivity|]; cbn;
            first [ left; reflexivity | right ] ].
  all: try discriminate.
  all: match goal with
  | Hd : directions _ _ = CallReturns ?resp,
    Hj : json ?resp = Return ?body,
    Hi : py_getitem ?body "routes" = Return ?routes,
    H0 : py_getitem0 ?routes = Return ?first,
    Hdur : py_get ?first "duration" = Return ?dur,
    Hdist : py_get ?first "distance" = Return ?dist,
    Hgeo : py_get ?first "geometry" = Return ?geo |- _ =>
      destruct first as [| | | | | |route]; try discriminate;
      destruct routes as [| | | | |[|x rest]|]; try discriminate;
      [ destruct s; discriminate | ];
      injection H0 as ->;
      destruct body as [| | | | | |items]; try discriminate;
      unfold py_getitem in Hi;
      destruct (lookup "routes" items) eqn:Hl; try discriminate;
      injection Hi as ->;
      exists route; unfold py_get in Hdur, Hdist, Hgeo;
      injection Hdur as <-; injection Hdist as <-; injection Hgeo as <-;
      split; [exists (PyDict items); split;
                [exists resp; auto | unfold first_route; now rewrite Hl] |];
      auto
  end.
Qed.

(** X6. A row never carries a route geometry next to a placeholder: when
    the geometry is set, the answer had a first route and the two texts
    are the ones computed from the duration and the distance of that very
    route. *)
Theorem X6_geometry_only_with_its_texts
  (origin : float * float) (r : row) (made : list api_call) (li : location) :
  fst (process_row origin r made) = Return li ->
  route_geometry_encoded li <> PyNone ->
  exists route,
    answers_first_route (directions (List.length made) (route_request origin r)) route /\
    time_text (field route "duration") = Return (travel_time_text li) /\
    distance_text (field route "distance") = Return (travel_distance_text li) /\
    route_geometry_encoded li = field route "geometry".
Proof.
  intros Hli Hgeo.
  destruct (process_row_geometry origin r made) as [Hraise | (li' & Hrow & Hcases)].
  - rewrite Hraise in Hli. discriminate.
  - rewrite Hrow in Hli. injection Hli as ->.
    destruct Hcases as [Hnone | Hroute]; [contradiction|exact Hroute].
Qed.

(** ** More on the loop and the page *)

Lemma basic_info_mirrors (rows : list row) :
  Forall2 mirrors (map basic_info rows) rows.
Proof.
  induction rows as [|r rest IH]; cbn [map]; constructor; [|exact IH].
  repeat split.
Qed.

Lemma requests_call_for (la lo : float) (rows : list row) :
  Forall2 (call_for la lo) (map (route_request (lo, la)) rows) rows.
Proof.
  induction rows as [|r rest IH]; cbn [map]; constructor; [|exact IH].
  repeat split.
Qed.

Lemma Forall2_In_left {A B : Type} (R : A -> B -> Prop) (l1 : list A) (l2 : list B) :
  Forall2 R l1 l2 -> forall a, In a l1 -> exists b, In b l2 /\ R a b.
Proof.
  induction 1 as [|a0 b0 l1 l2 Hab _ IH]; intros a Hin; [contradiction|].
  destruct Hin as [<- | Hin].
  - exists b0. split; [now left|exact Hab].
  - destruct (IH a Hin) as (b & Hb & Hr). exists b. split; [now right|exact Hr].
Qed.

(** The page a POST gets, when it gets one: its locations show the
    selected rows one for one, and it echoes the form. *)
Lemma index_post db req v :
  method req = POST ->
  rendered db req = Some v ->
  Forall2 mirrors (locations v) (matches db req) /\
  search_disease v = Some (submitted_term req) /\
  user_lat v = fst (submitted_location req) /\
  user_lon v = snd (submitted_location req).
Proof.
  intros Hm Hv.
  destruct (submitted_location req) as [[la|] [lo|]] eqn:Hloc.
  - destruct (index_located_page db req la lo v Hm Hloc Hv) as (Hf & _ & Heq).
    split; [eapply enrich_returned, Hf|]. rewrite Heq. cbn. auto.
  - unfold rendered in Hv.
    rewrite (index_without_location db req _ _ Hm Hloc) in Hv by auto.
    injection Hv as <-. cbn. split; [apply basic_info_mirrors|]. auto.
  - unfold rendered in Hv.
    rewrite (index_without_location db req _ _ Hm Hloc) in Hv by auto.
    injection Hv as <-. cbn. split; [apply basic_info_mirrors|]. auto.
  - unfold rendered in Hv.
    rewrite (index_without_location db req _ _ Hm Hloc) in Hv by auto.
    injection Hv as <-. cbn. split; [apply basic_info_mirrors|]. auto.
Qed.

(** A request without a user location gets a page. *)
Lemma index_no_location_returns db req :
  no_location req -> exists v, rendered db req = Some v.
Proof.
  intros Hno. destruct (index_no_location db req Hno) as (found & a & b & Hi & _).
  unfold rendered. rewrite Hi. cbn. eauto.
Qed.

(** X7. The locations of the page of a search are the selected rows, one
    for one and in the order of the table, with or without a user
    location: each shows the coordinates and the disease text of its row,
    and its name and details exactly when the row has them. The page is
    there without a user location, and with one when every selected row
    is answered with a route. *)
Theorem X7_locations_mirror_matches (db : store) (req : request) :
  method req = POST ->
  (forall v, rendered db req = Some v ->
             Forall2 mirrors (locations v) (matches db req) /\
             List.length (locations v) = List.length (matches db req)) /\
  (no_location req -> exists v, rendered db req = Some v) /\
  (forall la lo,
      submitted_location req = (Some la, Some lo) ->
      (forall j r, nth_error (matches db req) j = Some r ->
         exists t d, answers_route (directions j (route_request (lo, la) r)) t d) ->
      exists v, rendered db req = Some v).
Proof.
  intros Hm. split; [|split].
  - intros v Hv. destruct (index_post db req v Hm Hv) as (Hmir & _).
    split; [exact Hmir|]. eapply Forall2_length, Hmir.
  - apply index_no_location_returns.
  - intros la lo Hloc Hall.
    destruct (enrich_routes (lo, la) (matches db req) [] Hall) as (found & Hf).
    destruct (index_located_returns db req la lo _ _ Hm Hloc Hf) as (v & Hv & _).
    eauto.
Qed.

(** X8. With a user location at [(la, lo)] the calls of the request are
    those of the first [k] selected rows, one for each and in the order
    of the rows, each from the user to the row with the longitude before
    the latitude in both points, for driving, with an encoded simplified
    path. When the request gets its page, [k] is the number of selected
    rows; when it does not, the loop stopped at row [k]. *)
Theorem X8_calls_follow_the_matches
  (db : store) (req : request) (la lo : float) :
  method req = POST ->
  submitted_location req = (Some la, Some lo) ->
  exists k,
    (k <= List.length (matches db req))%nat /\
    calls_made db req = map (route_request (lo, la)) (firstn k (matches db req)) /\
    Forall2 (call_for la lo) (calls_made db req) (firstn k (matches db req)) /\
    (forall v, rendered db req = Some v -> k = List.length (matches db req)) /\
    (rendered db req = None -> (1 <= k)%nat).
Proof.
  intros Hm Hloc.
  destruct (enrich_calls (lo, la) (matches db req) []) as (k & Hk & Hcalls & Hres).
  assert (Hmade : calls_made db req =
                  map (route_request (lo, la)) (firstn k (matches db req))).
  { unfold calls_made. rewrite (index_with_location db req la lo Hm Hloc).
    destruct (enrich (lo, la) (matches db req) []) as [[e|found] made];
      cbn [snd] in *; exact Hcalls. }
  exists k. split; [exact Hk|]. split; [exact Hmade|].
  split; [rewrite Hmade; apply requests_call_for|].
  unfold rendered. rewrite (index_with_location db req la lo Hm Hloc).
  destruct (enrich (lo, la) (matches db req) []) as [[e|found] made];
    cbn [fst] in *; split; try discriminate; intros; tauto.
Qed.

Lemma query_filter_subset (db : store) (t : string) (r : row) :
  In r (query_filter db t) -> In r (csv_data_df db).
Proof.
  unfold query_filter, filter_rows.
  destruct (str_truthy t && data_load_success db && negb (is_empty (csv_data_df db)));
    [|contradiction].
  intros H. now apply filter_In in H.
Qed.

Lemma location_not_missing req la lo :
  method req = POST -> submitted_location req = (Some la, Some lo) ->
  ~ no_location req.
Proof.
  intros Hm Hloc [Hget | (a & b & Hab & Hnone)]; [congruence|].
  rewrite Hloc in Hab. injection Hab as <- <-. destruct Hnone; discriminate.
Qed.

Lemma firstn_In {A : Type} (k : nat) (l : list A) (x : A) :
  In x (firstn k l) -> In x l.
Proof.
  revert l. induction k as [|k IH]; intros [|y l]; cbn; try contradiction.
  intros [-> | H]; [now left|right; auto].
Qed.

(** X9. From start-up to the page: once the process serves, no location
    of a page has a NaN coordinate, and no call is made for a row with
    one, whether the request gets its page or not. *)
Theorem X9_no_nan_coordinate_on_a_page
  (env : environment) (db : store) (req : request) :
  startup env = Some db ->
  (forall v, rendered db req = Some v ->
     forall l, In l (locations v) ->
               is_nan (lat l) = false /\ is_nan (lon l) = false) /\
  (forall c, In c (calls_made db req) ->
             exists user la lo,
               waypoints c = [user; (lo, la)] /\
               is_nan la = false /\ is_nan lo = false).
Proof.
  intros Hstart. destruct (startup_loaded env db Hstart) as (f & _ & Hdb).
  assert (Hrows : forall r, In r (matches db req) ->
                            is_nan (LAT r) = false /\ is_nan (LON r) = false).
  { intros r Hr. apply query_filter_subset in Hr. rewrite Hdb in Hr. cbn in Hr.
    apply in_map_iff in Hr as (raw & <- & Hraw).
    apply filter_In in Hraw as [_ Hv]. unfold coordinates_valid in Hv.
    apply andb_true_iff in Hv as [Hla Hlo]. apply negb_true_iff in Hla, Hlo.
    split; assumption. }
  destruct (method req) eqn:Hm.
  - unfold rendered, calls_made. rewrite index_get by exact Hm. cbn.
    split; [intros v [= <-] l []|intros c []].
  - split.
    + intros v Hv l Hl. destruct (index_post db req v Hm Hv) as (Hmir & _).
      destruct (Forall2_In_left _ _ _ Hmir l Hl) as (r & Hr & Hlat & Hlon & _).
      rewrite Hlat, Hlon. now apply Hrows.
    + intros c Hc. destruct (submitted_location req) as [[la|] [lo|]] eqn:Hloc.
      * destruct (enrich_calls (lo, la) (matches db req) []) as (k & _ & Hcalls & _).
        unfold calls_made in Hc.
        rewrite (index_with_location db req la lo Hm Hloc) in Hc.
        assert (Hin : In c (map (route_request (lo, la)) (firstn k (matches db req)))).
        { destruct (enrich (lo, la) (matches db req) []) as [[e|found] made];
            cbn [snd app] in *; rewrite <- Hcalls; exact Hc. }
        apply in_map_iff in Hin as (r & <- & Hr). apply firstn_In in Hr.
        exists (lo, la), (LAT r), (LON r). split; [reflexivity|]. now apply Hrows.
      * unfold calls_made in Hc.
        rewrite (index_without_location db req _ _ Hm Hloc) in Hc by auto.
        contradiction.
      * unfold calls_made in Hc.
        rewrite (index_without_location db req _ _ Hm Hloc) in Hc by auto.
        contradiction.
      * unfold calls_made in Hc.
        rewrite (index_without_location db req _ _ Hm Hloc) in Hc by auto.
        contradiction.
Qed.

(** The page of a request that selects nothing. *)
Lemma index_nothing_selected db req :
  matches db req = [] ->
  calls_made db req = [] /\
  exists v, rendered db req = Some v /\ locations v = [] /\
            (no_location req ->
             map_center v = fst (initial_center db) /\
             map_zoom v = snd (initial_center db)).
Proof.
  intros Hrows. unfold calls_made, rendered. destruct (method req) eqn:Hm.
  - rewrite index_get by exact Hm. cbn. split; [reflexivity|].
    eexists. split; [reflexivity|]. cbn. auto.
  - destruct (submitted_location req) as [[la|] [lo|]] eqn:Hloc.
    + rewrite (index_with_location db req la lo Hm Hloc), Hrows. cbn.
      split; [reflexivity|]. eexists. split; [reflexivity|]. cbn.
      split; [reflexivity|].
      intros Hno. now destruct (location_not_missing req la lo Hm Hloc).
    + rewrite (index_without_location db req _ _ Hm Hloc), Hrows by auto. cbn.
      split; [reflexivity|]. eexists. split; [reflexivity|]. cbn. auto.
    + rewrite (index_without_location db req _ _ Hm Hloc), Hrows by auto. cbn.
      split; [reflexivity|]. eexists. split; [reflexivity|]. cbn. auto.
    + rewrite (index_without_location db req _ _ Hm Hloc), Hrows by auto. cbn.
      split; [reflexivity|]. eexists. split; [reflexivity|]. cbn. auto.
Qed.

Lemma filter_none {A : Type} (p : A -> bool) (l : list A) :
  (forall x, In x l -> p x = false) -> filter p l = [].
Proof.
  induction l as [|x l IH]; intros H; [reflexivity|].
  cbn. rewrite (H x (or_introl eq_refl)). apply IH. intros y Hy. apply H. now right.
Qed.

(** X10. A file in which no row has two usable coordinates does not stop
    the process: it serves with an empty table, and then every request,
    whatever it submits, makes no call and gets a page with no location;
    without a user location the map has the default center and zoom
    12. *)
Theorem X10_empty_table_is_served
  (env : environment) (db : store) (f : frame) :
  startup env = Some db ->
  read_csv env = Return f ->
  (forall raw, In raw (records f) -> coordinates_valid raw = false) ->
  csv_data_df db = [] /\
  forall req,
    calls_made db req = [] /\
    exists v, rendered db req = Some v /\ locations v = [] /\
              (no_location req ->
               map_center v = default_center /\ map_zoom v = 12).
Proof.
  intros Hstart Hf Hbad.
  destruct (startup_loaded env db Hstart) as (f' & Hf' & ->).
  assert (f' = f) by congruence. subst f'.
  assert (Hempty : map (clean_row f) (filter coordinates_valid (records f)) = [])
    by now rewrite (filter_none _ _ Hbad).
  split; [exact Hempty|]. intros req.
  match goal with |- context [calls_made ?d req] => set (db := d) end.
  assert (Hrows : matches db req = []).
  { unfold matches, query_filter. subst db. cbn [csv_data_df].
    rewrite Hempty. cbn. now rewrite !andb_false_r. }
  destruct (index_nothing_selected db req Hrows) as (Hcalls & v & Hv & Hl & Hcenter).
  split; [exact Hcalls|]. exists v. split; [exact Hv|]. split; [exact Hl|].
  intros Hno. destruct (Hcenter Hno) as [Hc Hz].
  unfold initial_center in Hc, Hz. subst db. cbn [csv_data_df data_load_success] in Hc, Hz.
  rewrite Hempty in Hc, Hz. cbn in Hc, Hz. auto.
Qed.

(** X11. The page echoes what was submitted: the term with its outer
    white space removed and the case of its letters kept (the match is
    made on its lower-case form), and the two coordinates as they were
    read, so that a latitude sent without a longitude is echoed although
    it is not used; a GET echoes nothing and selects nothing, whatever
    its form holds. *)
Theorem X11_page_echoes_the_form (db : store) (req : request) :
  (method req = POST ->
   forall v, rendered db req = Some v ->
     search_disease v = Some (strip (disease_name_field req)) /\
     user_lat v = fst (submitted_location req) /\
     user_lon v = snd (submitted_location req)) /\
  (method req = POST ->
   forall x, float_if_given (form_get req "user_lat") = Some (Some x) ->
             float_if_given (form_get req "user_lon") = Some None ->
             calls_made db req = [] /\
             exists v, rendered db req = Some v /\
                       search_disease v = Some (strip (disease_name_field req)) /\
                       user_lat v = Some x /\ user_lon v = None) /\
  (method req = GET ->
   calls_made db req = [] /\
   exists v, rendered db req = Some v /\ locations v = [] /\
     search_disease v = None /\ user_lat v = None /\ user_lon v = None).
Proof.
  split; [|split].
  - intros Hm v Hv. destruct (index_post db req v Hm Hv) as (_ & Hecho).
    exact Hecho.
  - intros Hm x Hlat Hlon.
    assert (Hloc : submitted_location req = (Some x, None)).
    { unfold submitted_location, read_user_location. now rewrite Hlat, Hlon. }
    unfold calls_made, rendered.
    rewrite (index_without_location db req _ _ Hm Hloc) by auto. cbn.
    split; [reflexivity|]. eexists. split; [reflexivity|]. cbn. auto.
  - intros Hm. unfold calls_made, rendered. rewrite index_get by exact Hm. cbn.
    split; [reflexivity|]. eexists. split; [reflexivity|]. cbn. auto.
Qed.

(** X12. The zoom goes with the center: 13 on a user location and on the
    mean of the results, 10 on the mean of the table, 12 on the default;
    no page has another zoom. *)
Theorem X12_zoom_levels (db : store) (req : request) (v : view) :
  rendered db req = Some v ->
  (map_zoom v = 10 \/ map_zoom v = 12 \/ map_zoom v = 13) /\
  (forall la lo, method req = POST ->
                 submitted_location req = (Some la, Some lo) -> map_zoom v = 13) /\
  (no_location req -> locations v <> [] -> map_zoom v = 13) /\
  (no_location req -> locations v = [] ->
   map_zoom v = if has_data db then 10 else 12).
Proof.
  assert (Hinit : snd (initial_center db) = if has_data db then 10 else 12).
  { unfold initial_center, has_data.
    now destruct (data_load_success db && negb (is_empty (csv_data_df db))). }
  destruct (method req) eqn:Hm;
    [|destruct (submitted_location req) as [[la|] [lo|]] eqn:Hloc].
  2:{ intros Hv.
      destruct (index_located_page db req la lo v Hm Hloc Hv) as (_ & _ & ->).
      cbn. split; [auto|]. split; [auto|].
      split; intros Hno; now destruct (location_not_missing req la lo Hm Hloc). }
  all: unfold rendered;
    destruct (index_no_location db req) as (found & a & b & -> & _);
    [first [now left | right; eauto] |].
  all: cbn; intros [= <-]; cbn.
  all: destruct found as [|l0 found]; cbn [is_empty]; rewrite ?Hinit.
  all: split; [destruct (has_data db); auto|].
  all: split; [intros; congruence|].
  all: split; [congruence|].
  all: intros _ H; first [reflexivity | discriminate].
Qed.

(** ** More on the query filter *)

Lemma str_app_assoc (a b c : string) : (a ++ b) ++ c = a ++ b ++ c.
Proof. induction a as [|x a IH]; cbn; [reflexivity|now rewrite IH]. Qed.

Lemma contains_ignoring_case_trans (t1 t2 cell : string) :
  contains_ignoring_case t1 t2 -> contains_ignoring_case t2 cell ->
  contains_ignoring_case t1 cell.
Proof.
  intros (b1 & p1 & a1 & -> & H1) (b2 & p2 & a2 & -> & H2).
  unfold lower in H2. rewrite !str_map_app in H2.
  destruct (str_map_split _ _ _ _ H2) as (x & rest & -> & Hx & Hrest).
  destruct (str_map_split _ _ _ _ Hrest) as (y & z & -> & Hy & Hz).
  exists (b2 ++ x), y, (z ++ a2). split.
  - now rewrite !str_app_assoc.
  - unfold lower. now rewrite Hy.
Qed.

Lemma query_filter_In (db : store) (t : string) (r : row) :
  In r (query_filter db t) <->
  t <> "" /\ data_load_success db = true /\
  In r (csv_data_df db) /\ contains_ignoring_case t (Disease r).
Proof.
  unfold query_filter, filter_rows. split.
  - destruct (str_truthy t) eqn:Ht; [|contradiction].
    destruct (data_load_success db); [|contradiction].
    destruct (is_empty (csv_data_df db)); [contradiction|].
    cbn [andb negb]. intros H. apply filter_In in H as [Hin Hc].
    split; [intros ->; discriminate|]. split; [reflexivity|].
    split; [exact Hin|]. now apply str_contains_nocase_iff.
  - intros (Ht & Hok & Hin & Hc).
    assert (Htruthy : str_truthy t = true) by (destruct t; [congruence|reflexivity]).
    assert (Hne : is_empty (csv_data_df db) = false)
      by (destruct (csv_data_df db); [contradiction|reflexivity]).
    rewrite Htruthy, Hok, Hne. cbn [andb negb].
    apply filter_In. split; [exact Hin|]. now apply str_contains_nocase_iff.
Qed.

Lemma contains_in_empty (t : string) : contains_ignoring_case t "" -> t = "".
Proof.
  intros (b & p & a & H & Hp).
  destruct b; [|discriminate]. destruct p; [|discriminate].
  destruct t; [reflexivity|discriminate].
Qed.

(** X13. A row whose disease cell is missing in the file is loaded with
    an empty disease text and is never selected, whatever the term: no
    search returns it. *)
Theorem X13_missing_disease_never_selected
  (db : store) (f : frame) (raw : string -> cell) (term : string) :
  raw "Disease" = CNaN ->
  Disease (clean_row f raw) = "" /\
  ~ In (clean_row f raw) (search db term).
Proof.
  intros Hmissing.
  assert (Hd : Disease (clean_row f raw) = "") by (cbn; now rewrite Hmissing).
  split; [exact Hd|]. unfold search. intros Hin.
  apply query_filter_In in Hin as (Ht & _ & _ & Hc).
  rewrite Hd in Hc. now apply contains_in_empty in Hc.
Qed.

(** X14. A longer term never selects more: when a term [t1] that is not
    empty occurs in a term [t2] up to case, every row the filter selects
    for [t2] is selected for [t1]. *)
Theorem X14_longer_term_selects_less
  (db : store) (t1 t2 : string) (r : row) :
  t1 <> "" ->
  contains_ignoring_case t1 t2 ->
  In r (query_filter db t2) ->
  In r (query_filter db t1).
Proof.
  intros Hne H12 Hin.
  apply query_filter_In in Hin as (_ & Hok & Hr & Hc).
  apply query_filter_In. repeat split; try assumption.
  eapply contains_ignoring_case_trans; eassumption.
Qed.

Lemma lstrip_app_space (pre s : string) :
  all_space pre = true -> lstrip (pre ++ s) = lstrip s.
Proof.
  induction pre as [|c pre IH]; cbn; [reflexivity|].
  intros H. apply andb_true_iff in H as [-> Hpre]. auto.
Qed.

Lemma rstrip_all_space (post : string) : all_space post = true -> rstrip post = "".
Proof.
  induction post as [|c post IH]; cbn; [reflexivity|].
  intros H. apply andb_true_iff in H as [-> Hpost]. now rewrite IH.
Qed.

Lemma rstrip_app_space (s post : string) :
  all_space post = true -> rstrip (s ++ post) = rstrip s.
Proof.
  intros Hpost. induction s as [|c s IH]; cbn.
  - now apply rstrip_all_space.
  - now rewrite IH.
Qed.

Lemma strip_app_space (s post : string) :
  all_space post = true -> strip (s ++ post) = strip s.
Proof.
  intros Hpost. unfold strip. induction s as [|c s IH].
  - cbn [append]. rewrite lstrip_all_space by exact Hpost. reflexivity.
  - cbn [append lstrip]. destruct (is_space c); [exact IH|].
    change (String c (s ++ post)) with (String c s ++ post).
    now apply rstrip_app_space.
Qed.

(** X15. White space around the submitted term does not change what is
    selected, and neither does the case of its letters: the term with any
    white space before and after it selects the rows of the bare term, and
    of its upper-case form. *)
Theorem X15_search_ignores_outer_space
  (db : store) (pre t post : string) :
  all_space pre = true ->
  all_space post = true ->
  search db (pre ++ t ++ post) = search db t /\
  search db (pre ++ upper t ++ post) = search db t.
Proof.
  intros Hpre Hpost.
  assert (Hstrip : forall s, strip (pre ++ s ++ post) = strip s).
  { intros s. unfold strip at 1. rewrite lstrip_app_space by exact Hpre.
    now apply strip_app_space. }
  unfold search. rewrite !Hstrip. split; [reflexivity|].
  now rewrite <- strip_lower, lower_upper, strip_lower.
Qed.

(** ** More on the time text *)

(** X16. For a duration of [z] whole seconds, negative ones included,
    the text shows the whole minutes [m] with [60 m <= z < 60 m + 60]; from
    an hour on it reads "H hr M min (driving)" with [H] at least 1, [M]
    from 0 to 59 and [60 H + M = m]; below an hour, and for every negative
    duration, it reads "m min (driving)" with no hours. *)
Theorem X16_shown_time_is_the_whole_minutes (z : Z) :
  exists m,
    time_text (PyInt z) = Return (format_minutes m) /\
    60 * m <= z < 60 * m + 60 /\
    (60 <= m ->
     exists H M, format_minutes m =
                 str_of_int H ++ " hr " ++ str_of_int M ++ " min (driving)" /\
                 1 <= H /\ 0 <= M < 60 /\ 60 * H + M = m) /\
    (m < 60 -> format_minutes m = str_of_int m ++ " min (driving)").
Proof.
  exists (z / 60). split; [reflexivity|].
  split; [pose proof (Z.div_mod z 60); pose proof (Z.mod_pos_bound z 60); lia|].
  set (m := z / 60). unfold format_minutes. split.
  - intros Hm. exists (m / 60), (m mod 60).
    assert (1 <= m / 60) by (apply Z.div_le_lower_bound; lia).
    replace (m / 60 >? 0) with true by (symmetry; apply Z.gtb_lt; lia).
    split; [reflexivity|]. split; [assumption|].
    pose proof (Z.div_mod m 60). pose proof (Z.mod_pos_bound m 60). lia.
  - intros Hm.
    assert (Hle : m / 60 <= 59 / 60) by (apply Z.div_le_mono; lia).
    change (59 / 60) with 0 in Hle.
    destruct (m / 60 >? 0) eqn:Hgt; [|reflexivity].
    apply Z.gtb_lt in Hgt. lia.
Qed.

End Handler.

(** * The statements at work on the three-row table *)

(** The second of two lookups times out: the request gets no page, and
    the loop made its two calls. *)
Lemma C1_witness :
  rendered plain_decimal float_mean repr_type_name flaky_service three_rows
    located_search = None /\
  fst (enrich repr_type_name flaky_service (77.5, 12.0)%float
         (matches three_rows located_search) []) = Raise mapbox_attribute_error /\
  exists k,
    (1 <= k <= 2)%nat /\
    calls_made plain_decimal float_mean repr_type_name flaky_service three_rows
      located_search =
    map (route_request (77.5, 12.0)%float)
        (firstn k (matches three_rows located_search)).
Proof.
  apply (C1_fault_aborts_the_request plain_decimal float_mean repr_type_name
           flaky_service three_rows located_search 12.0%float 77.5%float 1
           (mk_row 12 22 "cerebral malaria") timed_out).
  - reflexivity.
  - reflexivity.
  - reflexivity.
  - left. reflexivity.
Defined.

(** Only the latitude is submitted: the two rows on malaria are shown,
    each with the placeholder. *)
Lemma C2_witness :
  calls_made plain_decimal float_mean repr_type_name steady_service three_rows
    (post "malaria" [("user_lat", "12.0")]) = [] /\
  exists v,
    rendered plain_decimal float_mean repr_type_name steady_service three_rows
      (post "malaria" [("user_lat", "12.0")]) = Some v /\
    Forall2 (fun l r => mirrors l r /\
                        travel_time_text l = "Requires Location" /\
                        travel_distance_text l = "Requires Location" /\
                        route_geometry_encoded l = PyNone)
            (locations v) malaria_rows /\
    List.length (locations v) = 2%nat.
Proof.
  destruct (C2_no_origin_no_calls plain_decimal float_mean repr_type_name
              steady_service three_rows (post "malaria" [("user_lat", "12.0")])
              (Some 12.0%float) None eq_refl (or_intror eq_refl))
    as (Hcalls & v & Hv & Hpost & _).
  split; [exact Hcalls|]. exists v. split; [exact Hv|]. exact (Hpost eq_refl).
Defined.

(** The user at (12.0, 77.5) and a service that answers every call with
    a route: the center is the user's. *)
Lemma C3_witness :
  exists v,
    rendered plain_decimal float_mean repr_type_name steady_service three_rows
      located_search = Some v /\
    map_center v = [77.5%float; 12.0%float].
Proof.
  apply (proj1 (proj2 (proj2 (C3_map_center_priority plain_decimal float_mean
                                repr_type_name steady_service three_rows
                                located_search)))
               12.0%float 77.5%float).
  - reflexivity.
  - reflexivity.
  - intros j r _. exists "2 min (driving)", "4.20 km (driving)".
    eexists. eexists. split; [eexists; repeat split|].
    repeat split.
Defined.

(** A term of two spaces. *)
Lemma C4_witness :
  search three_rows (disease_name_field (post "  " [])) = [] /\
  exists v,
    rendered plain_decimal float_mean repr_type_name steady_service three_rows
      (post "  " []) = Some v /\
    locations v = [].
Proof.
  apply (C4_blank_term_selects_nothing plain_decimal float_mean repr_type_name
           steady_service three_rows (post "  " [])).
  - reflexivity.
  - reflexivity.
Defined.



(** Every call is refused with the status 422 and the code
    "InvalidInput": the request gets no page. A call answered with a good
    status, the code "NoRoute" and no route gives the row its text. *)
Lemma C6_witness :
  process_row repr_type_name invalid_input_service (77.5, 12.0)%float
    first_malaria_row [] =
    (Raise mapbox_attribute_error,
     [route_request (77.5, 12.0)%float first_malaria_row]) /\
  rendered plain_decimal float_mean repr_type_name invalid_input_service
    three_rows located_search = None /\
  exists li,
    process_row repr_type_name no_route_service (77.5, 12.0)%float
      first_malaria_row [] =
      (Return li, [route_request (77.5, 12.0)%float first_malaria_row]) /\
    travel_time_text li = "API Error: NoRoute" /\
    travel_distance_text li = "API Error: NoRoute".
Proof.
  split; [|split].
  - apply (proj1 (C6_error_status_aborts_the_request plain_decimal float_mean
                    repr_type_name invalid_input_service)
                 (77.5, 12.0)%float first_malaria_row [] refusal unprocessable eq_refl).
    reflexivity.
  - apply (proj1 (proj2 (C6_error_status_aborts_the_request plain_decimal float_mean
                           repr_type_name invalid_input_service))
                 three_rows located_search 12.0%float 77.5%float 0%nat
                 first_malaria_row refusal unprocessable); reflexivity.
  - destruct (proj2 (proj2 (proj2 (C6_error_status_aborts_the_request plain_decimal
                                     float_mean repr_type_name no_route_service))
                      (77.5, 12.0)%float first_malaria_row [] (PyDict no_route_body)
                      (ex_intro _ _ (conj eq_refl (conj eq_refl eq_refl))))
                    no_route_body eq_refl ltac:(discriminate) eq_refl)
      as (li & Hrow & Hcode & _).
    exists li. split; [exact Hrow|].
    apply (Hcode (PyStr "NoRoute")); reflexivity.
Defined.

(** 125.5 seconds are two whole minutes. *)
Lemma C7_witness :
  time_text (PyFloat 125.5%float) = Return "2 min (driving)".
Proof.
  apply (proj1 (proj2 (C7_duration_text repr_type_name steady_service))
           (PyFloat 125.5%float) 2).
  - reflexivity.
  - lia.
Defined.

(** 4200 meters, as an integer. *)
Lemma C8_witness :
  distance_text (PyInt 4200) = Return "4.20 km (driving)" /\
  two_decimal_places "4.20".
Proof.
  apply (proj1 (C8_distance_text repr_type_name steady_service)
           (PyInt 4200) (4200 / 1000)%float).
  - reflexivity.
  - reflexivity.
Defined.

(** The latitude "abc" does not parse and two rows match: the center is
    the mean of the two results, (21, 11), not that of the table,
    (34, 24). *)
Lemma C9_counterexample :
  float_if_given plain_decimal (form_get unparsed_latitude "user_lat") = None /\
  exists v,
    rendered plain_decimal float_mean repr_type_name steady_service three_rows
      unparsed_latitude = Some v /\
    map_center v = [21%float; 11%float] /\
    [float_mean (map LON (csv_data_df three_rows));
     float_mean (map LAT (csv_data_df three_rows))] = [34%float; 24%float] /\
    map_center v <> [float_mean (map LON (csv_data_df three_rows));
                     float_mean (map LAT (csv_data_df three_rows))].
Proof.
  split; [reflexivity|].
  eexists. split; [reflexivity|].
  split; [vm_compute; reflexivity|].
  split; [vm_compute; reflexivity|].
  intros H.
  apply (f_equal (fun c => match c with
                           | x :: _ => PrimFloat.eqb x 21%float
                           | [] => false
                           end)) in H.
  vm_compute in H. discriminate.
Defined.

Lemma C9_witness :
  calls_made plain_decimal float_mean repr_type_name steady_service three_rows
    unparsed_latitude = [] /\
  exists v,
    rendered plain_decimal float_mean repr_type_name steady_service three_rows
      unparsed_latitude = Some v /\
    user_lat v = None /\ user_lon v = None /\
    (locations v <> [] ->
     map_center v = [float_mean (map lon (locations v));
                     float_mean (map lat (locations v))]) /\
    (locations v = [] -> has_data three_rows = true ->
     map_center v = [float_mean (map LON (csv_data_df three_rows));
                     float_mean (map LAT (csv_data_df three_rows))]) /\
    (locations v = [] -> has_data three_rows = false -> map_center v = default_center).
Proof.
  apply (C9_unparsed_location_is_no_location plain_decimal float_mean
           repr_type_name steady_service three_rows unparsed_latitude).
  - reflexivity.
  - left. reflexivity.
Defined.

(** A page of two rows, each answered with a route. *)
Lemma C10_witness :
  exists v,
    rendered plain_decimal float_mean repr_type_name steady_service three_rows
      located_search = Some v /\
    List.length (locations v) = 2%nat /\
    forall l, In l (locations v) ->
      travel_time_text l <> "Calculating..." /\
      travel_distance_text l <> "Calculating...".
Proof.
  assert (Hpage : exists v,
             rendered plain_decimal float_mean repr_type_name steady_service
               three_rows located_search = Some v /\
             List.length (locations v) = 2%nat)
    by (vm_compute; eexists; split; reflexivity).
  destruct Hpage as (v & Hv & Hlen).
  exists v. split; [exact Hv|]. split; [exact Hlen|].
  exact (proj2 (proj2 (C10_pending_text_never_returned plain_decimal float_mean
                         repr_type_name steady_service three_rows located_search))
               v Hv).
Defined.

(** * The further facts at work *)

Lemma X1_witness :
  exists db, startup repr_type_name plain_decimal (clinic_environment clinic_frame)
             = Some db.
Proof.
  apply (proj2 (X1_startup_serves_iff repr_type_name plain_decimal
                  (clinic_environment clinic_frame))).
  split; [|split].
  - exists "pk.test". repeat split; discriminate.
  - exists tt. reflexivity.
  - exists clinic_frame. cbn. auto 10.
Defined.

Lemma X2_witness :
  Forall (fun r => is_nan (LAT r) = false /\ is_nan (LON r) = false)
         (csv_data_df clinic_store) /\
  List.length (records clinic_frame) =
  (List.length (csv_data_df clinic_store) +
   List.length (filter (fun raw => negb (coordinates_valid plain_decimal raw))
                       (records clinic_frame)))%nat.
Proof.
  destruct (X2_loaded_rows_have_coordinates repr_type_name plain_decimal
              (clinic_environment clinic_frame) clinic_store eq_refl)
    as (_ & f & kept & Hf & _ & _ & _ & _ & Hnan & Hlen).
  injection Hf as <-. split; [exact Hnan|exact Hlen].
Defined.

(** A distance given as text: the time text is computed, the distance
    fails, and the pass ends with the AttributeError. *)
Lemma X3_witness :
  process_row repr_type_name bad_distance_service (77.5, 12.0)%float
    first_malaria_row [] =
  (Raise mapbox_attribute_error,
   [route_request (77.5, 12.0)%float first_malaria_row]).
Proof.
  apply (X3_format_failure_ends_the_pass repr_type_name bad_distance_service
           (77.5, 12.0)%float first_malaria_row [] bad_distance_route
           text_distance_error).
  - eexists. split; [eexists; repeat split|reflexivity].
  - right. split; [exists "2 min (driving)"|]; reflexivity.
Defined.

(** A route with a distance only. *)
Lemma X4_witness :
  fst (process_row repr_type_name distance_only_service (77.5, 12.0)%float
         (mk_row 10 20 "Malaria") []) =
  Return (with_result (mk_row 10 20 "Malaria") "Time N/A" "4.20 km (driving)"
            (field distance_only_route "geometry")).
Proof.
  apply (proj1 (X4_missing_field_only_its_text repr_type_name distance_only_service
                  (77.5, 12.0)%float (mk_row 10 20 "Malaria") []
                  distance_only_route
                  (ex_intro _ _ (conj (ex_intro _ _ (conj eq_refl (conj eq_refl eq_refl)))
                                      eq_refl)))).
  - reflexivity.
  - reflexivity.
Defined.

(** A body that is a JSON array. *)
Lemma X5_witness :
  py_get (PyList [PyInt 1]) "routes" =
    Raise (AttributeError "'list' object has no attribute 'get'") /\
  process_row repr_type_name array_service (77.5, 12.0)%float
    first_malaria_row [] =
  (Raise mapbox_attribute_error,
   [route_request (77.5, 12.0)%float first_malaria_row]).
Proof.
  apply (X5_body_not_an_object_ends_the_pass repr_type_name array_service
           (77.5, 12.0)%float first_malaria_row [] (PyList [PyInt 1])).
  - eexists. repeat split.
  - reflexivity.
  - discriminate.
Defined.

(** A row with a geometry has the texts of its route. *)
Lemma X6_witness :
  exists route,
    answers_first_route
      (steady_service 0 (route_request (77.5, 12.0)%float (mk_row 10 20 "Malaria")))
      route /\
    time_text (field route "duration") = Return "2 min (driving)" /\
    distance_text (field route "distance") = Return "4.20 km (driving)" /\
    PyStr "_p~iF~ps|U" = field route "geometry".
Proof.
  apply (X6_geometry_only_with_its_texts repr_type_name steady_service
           (77.5, 12.0)%float (mk_row 10 20 "Malaria") []
           (with_result (mk_row 10 20 "Malaria") "2 min (driving)"
              "4.20 km (driving)" (PyStr "_p~iF~ps|U"))).
  - reflexivity.
  - discriminate.
Defined.

(** The page of a search with a user location, every call answered with
    a route. *)
Lemma X7_witness :
  exists v,
    rendered plain_decimal float_mean repr_type_name steady_service three_rows
      located_search = Some v /\
    Forall2 mirrors (locations v) malaria_rows /\
    List.length (locations v) = 2%nat.
Proof.
  assert (Hpage : exists v,
             rendered plain_decimal float_mean repr_type_name steady_service
               three_rows located_search = Some v)
    by (vm_compute; eexists; reflexivity).
  destruct Hpage as (v & Hv).
  exists v. split; [exact Hv|].
  exact (proj1 (X7_locations_mirror_matches plain_decimal float_mean repr_type_name
                  steady_service three_rows located_search eq_refl)
               v Hv).
Defined.

(** The second of two lookups times out: both calls were made, and there
    is no page. *)
Lemma X8_witness :
  exists k,
    (k <= 2)%nat /\
    calls_made plain_decimal float_mean repr_type_name flaky_service three_rows
      located_search = map (route_request (77.5, 12.0)%float) (firstn k malaria_rows) /\
    Forall2 (call_for 12.0%float 77.5%float)
      (calls_made plain_decimal float_mean repr_type_name flaky_service three_rows
         located_search)
      (firstn k malaria_rows) /\
    (forall v, rendered plain_decimal float_mean repr_type_name flaky_service
                 three_rows located_search = Some v -> k = 2%nat) /\
    (rendered plain_decimal float_mean repr_type_name flaky_service
       three_rows located_search = None -> (1 <= k)%nat).
Proof.
  apply (X8_calls_follow_the_matches plain_decimal float_mean repr_type_name
           flaky_service three_rows located_search 12.0%float 77.5%float).
  - reflexivity.
  - reflexivity.
Defined.

Lemma X9_witness :
  exists v,
    rendered plain_decimal float_mean repr_type_name steady_service clinic_store
      located_search = Some v /\
    List.length (locations v) = 2%nat /\
    (forall l, In l (locations v) ->
               is_nan (lat l) = false /\ is_nan (lon l) = false) /\
    (forall c, In c (calls_made plain_decimal float_mean repr_type_name
                       steady_service clinic_store located_search) ->
               exists user la lo,
                 waypoints c = [user; (lo, la)] /\
                 is_nan la = false /\ is_nan lo = false).
Proof.
  destruct (X9_no_nan_coordinate_on_a_page plain_decimal float_mean repr_type_name
              steady_service plain_decimal (clinic_environment clinic_frame)
              clinic_store located_search eq_refl) as (Hpage & Hcalls).
  assert (Hv : exists v,
             rendered plain_decimal float_mean repr_type_name steady_service
               clinic_store located_search = Some v /\
             List.length (locations v) = 2%nat)
    by (vm_compute; eexists; split; reflexivity).
  destruct Hv as (v & Hv & Hlen).
  exists v. split; [exact Hv|]. split; [exact Hlen|].
  split; [exact (Hpage v Hv)|exact Hcalls].
Defined.

Lemma X10_witness :
  csv_data_df empty_store = [] /\
  forall req,
    calls_made plain_decimal float_mean repr_type_name steady_service
      empty_store req = [] /\
    exists v,
      rendered plain_decimal float_mean repr_type_name steady_service
        empty_store req = Some v /\
      locations v = [] /\
      (no_location plain_decimal req ->
       map_center v = default_center /\ map_zoom v = 12).
Proof.
  apply (X10_empty_table_is_served plain_decimal float_mean repr_type_name
           steady_service plain_decimal (clinic_environment unusable_frame)
           empty_store unusable_frame).
  - reflexivity.
  - reflexivity.
  - intros raw [<- | [<- | []]]; reflexivity.
Defined.

(** A latitude sent alone is echoed and not used. *)
Lemma X11_witness :
  calls_made plain_decimal float_mean repr_type_name steady_service three_rows
    (post " Malaria " [("user_lat", "12.0")]) = [] /\
  exists v,
    rendered plain_decimal float_mean repr_type_name steady_service three_rows
      (post " Malaria " [("user_lat", "12.0")]) = Some v /\
    search_disease v = Some "Malaria" /\
    user_lat v = Some 12.0%float /\ user_lon v = None.
Proof.
  apply (proj1 (proj2 (X11_page_echoes_the_form plain_decimal float_mean
                         repr_type_name steady_service three_rows
                         (post " Malaria " [("user_lat", "12.0")])))).
  - reflexivity.
  - reflexivity.
  - reflexivity.
Defined.

(** A search with a user location is shown at zoom 13. *)
Lemma X12_witness :
  exists v,
    rendered plain_decimal float_mean repr_type_name steady_service three_rows
      located_search = Some v /\
    map_zoom v = 13.
Proof.
  assert (Hpage : exists v,
             rendered plain_decimal float_mean repr_type_name steady_service
               three_rows located_search = Some v)
    by (vm_compute; eexists; reflexivity).
  destruct Hpage as (v & Hv).
  exists v. split; [exact Hv|].
  apply (proj1 (proj2 (X12_zoom_levels plain_decimal float_mean repr_type_name
                         steady_service three_rows located_search v Hv))
               12.0%float 77.5%float); reflexivity.
Defined.

(** The fourth row of [clinic_frame] has no disease. *)
Lemma X13_witness :
  Disease (clean_row repr_type_name plain_decimal clinic_frame
             (record_of [("LAT", CText "14"); ("LON", CText "24")])) = "" /\
  ~ In (clean_row repr_type_name plain_decimal clinic_frame
          (record_of [("LAT", CText "14"); ("LON", CText "24")]))
       (search clinic_store "malaria").
Proof.
  apply (X13_missing_disease_never_selected repr_type_name plain_decimal
           clinic_store clinic_frame
           (record_of [("LAT", CText "14"); ("LON", CText "24")]) "malaria").
  reflexivity.
Defined.

(** What "Malaria" selects, "mal" selects. *)
Lemma X14_witness :
  In (mk_row 10 20 "Malaria") (query_filter three_rows "mal").
Proof.
  apply (X14_longer_term_selects_less three_rows "mal" "Malaria"
           (mk_row 10 20 "Malaria")).
  - discriminate.
  - exists "", "Mal", "aria". split; reflexivity.
  - left. reflexivity.
Defined.

Lemma X15_witness :
  search three_rows ("  " ++ "flu" ++ " ") = search three_rows "flu" /\
  search three_rows ("  " ++ upper "flu" ++ " ") = search three_rows "flu".
Proof.
  apply (X15_search_ignores_outer_space three_rows "  " "flu" " ").
  - reflexivity.
  - reflexivity.
Defined.
